(** * The incident-ticket query engine of [backend/main.py]

    A shallow embedding of the deterministic part of the backend: the
    filter engine [apply_filters], the three query tools built on it
    ([count_tickets], [filter_tickets], [group_by_tickets]) and the
    dispatch step of the [/chat] endpoint (the lookup in [tool_map] and the
    call with the arguments unpacked as keywords),
    together with the month tool of the earlier prototype
    [backend/test2.py].

    Modelling choices.
    - The arguments of a tool call come out of [json.loads], so they are
      dynamically typed Python values ([pyval]), floats included.
    - Text is a string of code points below 256; [str.lower], [str],
      [repr] and [int] are written out for that range.
    - A Python exception is an explicit outcome ([Raise]); nothing in the
      backend catches one, so a [Raise] of a tool is a [Raise] of [chat].
    - The table [df] is a list of rows in file order; a boolean-mask
      selection [df[mask]] is [List.filter].  A cell of the five text
      columns holds text or is missing (the NaN that the loader puts
      for an empty or NA-like cell); [created_date] is a timestamp in
      every row, which the strict parse of the loader requires. *)

From Stdlib Require Import List String Ascii ZArith Bool Arith Lia.
From Stdlib Require Import DecimalString DecimalNat Permutation.
Import ListNotations.
Open Scope string_scope.
Open Scope nat_scope.
Set Warnings "-register-all".

(* ================================================================== *)
(** ** Python values, exceptions and outcomes *)

(** A JSON number with a fraction or an exponent decodes to a float, and
    so do the literals Infinity, -Infinity and NaN.  Of a float the
    backend can observe its truth value, what [int] makes of it, how it
    compares with an integer and how it prints.  A finite float is
    carried by exactly that: its integer part (rounded toward zero),
    whether it is that integer exactly, and its printed form.  Every
    float is such a value; what is proved for all such values holds for
    all floats. *)
Inductive pyfloat : Type :=
| Finite (whole : Z) (exact : bool) (text : string)
| Infinity (negative : bool)
| NaN.

Inductive pyval : Type :=
| PNone
| PBool (b : bool)
| PInt (z : Z)
| PFloat (x : pyfloat)
| PStr (s : string)
| PList (items : list pyval)
| PDict (kv : list (string * pyval)).

Inductive pyerr : Type :=
| KeyError
| TypeError
| ValueError
| AttributeError
| OverflowError.

Inductive outcome (A : Type) : Type :=
| Return (a : A)
| Raise (e : pyerr).

Arguments Return {A} a.
Arguments Raise {A} e.

Definition bind {A B : Type} (c : outcome A) (k : A -> outcome B) : outcome B :=
  match c with
  | Return a => k a
  | Raise e => Raise e
  end.

Notation "x <- c ;; k" := (bind c (fun x => k))
  (at level 61, c at next level, right associativity).

(* ================================================================== *)
(** ** The Python builtins the backend calls *)

Module Py.

(** [bool(v)], the truth test of [if filters:] and [if not tool_calls]. *)
Definition truthy (v : pyval) : bool :=
  match v with
  | PNone => false
  | PBool b => b
  | PInt z => negb (z =? 0)%Z
  | PFloat (Finite whole exact _) => negb ((whole =? 0)%Z && exact)
  | PFloat _ => true
  | PStr s => negb (s =? "")%string
  | PList l => match l with [] => false | _ => true end
  | PDict kv => match kv with [] => false | _ => true end
  end.

(** [str.lower] on code points below 256: A-Z and the accented capitals
    of Latin-1 (0xC0-0xDE without the multiplication sign 0xD7) move up
    by 32, everything else stays. *)
Definition lower_char (c : ascii) : ascii :=
  let n := nat_of_ascii c in
  if ((65 <=? n) && (n <=? 90))
     || ((192 <=? n) && (n <=? 222) && negb (n =? 215))
  then ascii_of_nat (n + 32)
  else c.

Fixpoint lower (s : string) : string :=
  match s with
  | EmptyString => EmptyString
  | String c r => String (lower_char c) (lower r)
  end.

(** Decimal printing of integers, as [str(n)] and an f-string do. *)
Definition str_of_nat (n : nat) : string :=
  NilEmpty.string_of_uint (Nat.to_uint n).

Definition str_of_Z (z : Z) : string :=
  NilEmpty.string_of_int (Z.to_int z).

Fixpoint join (sep : string) (parts : list string) : string :=
  match parts with
  | [] => ""
  | [p] => p
  | p :: rest => p ++ sep ++ join sep rest
  end.

(** [repr] of a string: single quotes unless the text has a single and
    no double quote; the quote in use and the backslash are escaped,
    tab, newline and return are named, other unprintable code points
    are written [\xhh]. *)
Definition squote : ascii := "'"%char.
Definition dquote : ascii := ascii_of_nat 34.
Definition backslash : ascii := ascii_of_nat 92.

Fixpoint has_char (c : ascii) (s : string) : bool :=
  match s with
  | EmptyString => false
  | String d r => (d =? c)%char || has_char c r
  end.

Definition hex_digit (n : nat) : ascii :=
  nth n (list_ascii_of_string "0123456789abcdef") "0"%char.

Definition printable (n : nat) : bool :=
  negb ((n <? 32) || (n =? 127) || ((128 <=? n) && (n <=? 160)) || (n =? 173)).

Definition repr_char (quote c : ascii) : string :=
  let n := nat_of_ascii c in
  if (c =? quote)%char || (c =? backslash)%char then String backslash (String c "")
  else if n =? 9 then String backslash "t"
  else if n =? 10 then String backslash "n"
  else if n =? 13 then String backslash "r"
  else if printable n then String c ""
  else String backslash (String "x" (String (hex_digit (n / 16)) (String (hex_digit (n mod 16)) ""))).

Fixpoint repr_body (quote : ascii) (s : string) : string :=
  match s with
  | EmptyString => EmptyString
  | String c r => repr_char quote c ++ repr_body quote r
  end.

Definition repr_str (s : string) : string :=
  let quote := if has_char squote s && negb (has_char dquote s) then dquote else squote in
  String quote (repr_body quote s ++ String quote "").

Definition repr_float (x : pyfloat) : string :=
  match x with
  | Finite _ _ text => text
  | Infinity false => "inf"
  | Infinity true => "-inf"
  | NaN => "nan"
  end.

Fixpoint repr (v : pyval) : string :=
  match v with
  | PNone => "None"
  | PBool true => "True"
  | PBool false => "False"
  | PInt z => str_of_Z z
  | PFloat x => repr_float x
  | PStr s => repr_str s
  | PList l => "[" ++ join ", " (map repr l) ++ "]"
  | PDict kv =>
      "{" ++ join ", " (map (fun p => let '(k, x) := p in repr_str k ++ ": " ++ repr x) kv) ++ "}"
  end.

(** [str(v)]: a string is itself, anything else prints as its [repr]. *)
Definition str (v : pyval) : string :=
  match v with
  | PStr s => s
  | _ => repr v
  end.

(** [int(v)].  [None] and containers are a [TypeError]; a finite float
    is cut to its integer part, an infinity is an [OverflowError] and
    NaN a [ValueError]; a string must be an integer literal: optional
    white space around an optional sign and decimal digits, single
    underscores allowed between digits.  (The interpreter's cap on the
    number of digits is not modelled.) *)
Definition is_space (c : ascii) : bool :=
  let n := nat_of_ascii c in
  ((9 <=? n) && (n <=? 13)) || (n =? 32) || (n =? 133) || (n =? 160).

Definition digit_val (c : ascii) : option Z :=
  let n := nat_of_ascii c in
  if (48 <=? n) && (n <=? 57) then Some (Z.of_nat (n - 48)) else None.

Fixpoint skip_spaces (l : list ascii) : list ascii :=
  match l with
  | c :: r => if is_space c then skip_spaces r else l
  | [] => []
  end.

(** Called after a digit has been read: reads on through digits, and
    through an underscore when a digit follows it. *)
Fixpoint scan_digits (acc : Z) (l : list ascii) : option (Z * list ascii) :=
  match l with
  | [] => Some (acc, [])
  | c :: r =>
      match digit_val c with
      | Some d => scan_digits (10 * acc + d) r
      | None =>
          if (c =? "_")%char then
            match r with
            | c2 :: r2 =>
                match digit_val c2 with
                | Some d => scan_digits (10 * acc + d) r2
                | None => None
                end
            | [] => None
            end
          else Some (acc, l)
      end
  end.

Definition scan_magnitude (l : list ascii) : option Z :=
  match l with
  | c :: r =>
      match digit_val c with
      | Some d =>
          match scan_digits d r with
          | Some (z, rest) => match skip_spaces rest with [] => Some z | _ => None end
          | None => None
          end
      | None => None
      end
  | [] => None
  end.

Definition int_of_string (s : string) : option Z :=
  match skip_spaces (list_ascii_of_string s) with
  | c :: r =>
      if (c =? "+")%char then scan_magnitude r
      else if (c =? "-")%char then option_map Z.opp (scan_magnitude r)
      else scan_magnitude (c :: r)
  | [] => None
  end.

Definition int (v : pyval) : outcome Z :=
  match v with
  | PInt z => Return z
  | PBool b => Return (if b then 1 else 0)%Z
  | PFloat (Finite whole _ _) => Return whole
  | PFloat (Infinity _) => Raise OverflowError
  | PFloat NaN => Raise ValueError
  | PStr s => match int_of_string s with Some z => Return z | None => Raise ValueError end
  | PNone | PList _ | PDict _ => Raise TypeError
  end.

(** [hash(v)] succeeds for the scalars; lists and dicts are unhashable,
    which is what a set-membership test on them raises. *)
Definition hashable (v : pyval) : bool :=
  match v with
  | PList _ | PDict _ => false
  | _ => true
  end.

(** [sub in s] for two strings: substring test. *)
Fixpoint contains (sub s : string) : bool :=
  prefix sub s ||
  match s with
  | EmptyString => false
  | String _ r => contains sub r
  end.

(** [d.get]-style lookup in the items of a dict. *)
Fixpoint lookup (k : string) (kv : list (string * pyval)) : option pyval :=
  match kv with
  | [] => None
  | (k', v) :: r => if (k' =? k)%string then Some v else lookup k r
  end.

Definition has_key (k : string) (kv : list (string * pyval)) : bool :=
  match lookup k kv with Some _ => true | None => false end.

End Py.


(* ================================================================== *)
(** ** The dataset *)

Record Timestamp : Type := mkTimestamp {
  year : Z;
  month : Z;
  day : Z
}.

(** A cell of a text column: its text, or nothing where the file has
    an empty or NA-like cell (a NaN once loaded). *)
Definition cell : Type := option string.

Record Ticket : Type := mkTicket {
  ticket_id : string;
  company : cell;
  status : cell;
  priority : cell;
  category : cell;
  assigned_to : cell;
  created_date : Timestamp;
  closed_date : option Timestamp
}.

(** [column.str.lower() == wanted] on one row: a missing cell stays
    missing under [.str.lower()] and equals no text. *)
Definition lower_is (c : cell) (wanted : string) : bool :=
  match c with
  | Some s => (Py.lower s =? wanted)%string
  | None => false
  end.

(** [column == wanted] on one row: a missing cell equals no text. *)
Definition cell_is (c : cell) (wanted : string) : bool :=
  match c with
  | Some s => (s =? wanted)%string
  | None => false
  end.

(** The keys [groupby] groups on: rows whose key is missing are left
    out of every group. *)
Fixpoint dropna {K : Type} (keys : list (option K)) : list K :=
  match keys with
  | [] => []
  | Some k :: rest => k :: dropna rest
  | None :: rest => dropna rest
  end.

Definition DataFrame : Type := list Ticket.

(** [df[col]] for the text columns that the engine reads by name. *)
Definition text_column (col : string) : option (Ticket -> cell) :=
  if (col =? "company")%string then Some company
  else if (col =? "status")%string then Some status
  else if (col =? "priority")%string then Some priority
  else if (col =? "category")%string then Some category
  else if (col =? "assigned_to")%string then Some assigned_to
  else None.

(* ================================================================== *)
(** ** STEP 3: allowed columns *)

Definition ALLOWED_FILTERS : list string :=
  ["company"; "status"; "priority"; "category"; "assigned_to"].

Definition ALLOWED_GROUP_BY : list string :=
  ["company"; "status"; "priority"; "category"; "assigned_to"; "month"].

Definition mem (s : string) (names : list string) : bool :=
  existsb (String.eqb s) names.

(** [v in names] for a set of strings: hashes [v] first. *)
Definition in_set (v : pyval) (names : list string) : outcome bool :=
  match v with
  | PStr s => Return (mem s names)
  | PList _ | PDict _ => Raise TypeError
  | _ => Return false
  end.

(** [name in v], the membership test applied to [date_filter]. *)
Definition py_in (name : string) (v : pyval) : outcome bool :=
  match v with
  | PDict kv => Return (Py.has_key name kv)
  | PStr s => Return (Py.contains name s)
  | PList l =>
      Return (existsb (fun x => match x with PStr s => (s =? name)%string | _ => false end) l)
  | _ => Raise TypeError
  end.

(** [v[name]] with a string subscript. *)
Definition getitem (v : pyval) (name : string) : outcome pyval :=
  match v with
  | PDict kv =>
      match Py.lookup name kv with
      | Some x => Return x
      | None => Raise KeyError
      end
  | _ => Raise TypeError
  end.

(** [v.items()]. *)
Definition items (v : pyval) : outcome (list (string * pyval)) :=
  match v with
  | PDict kv => Return kv
  | _ => Raise AttributeError
  end.

(* ================================================================== *)
(** ** STEP 4: the tool functions *)

(** One turn of [for col, value in filters.items()].  Every name of
    [ALLOWED_FILTERS] is a text column ([allowed_filter_column]), so the
    [KeyError] of a missing column is never reached. *)
Definition filter_step (df_out : DataFrame) (item : string * pyval) : outcome DataFrame :=
  let '(col, value) := item in
  if mem col ALLOWED_FILTERS then
    match text_column col with
    | Some field =>
        Return (filter (fun t => lower_is (field t) (Py.lower (Py.str value))) df_out)
    | None => Raise KeyError
    end
  else Return df_out.

Fixpoint filter_loop (df_out : DataFrame) (entries : list (string * pyval)) : outcome DataFrame :=
  match entries with
  | [] => Return df_out
  | item :: rest =>
      df_out' <- filter_step df_out item ;;
      filter_loop df_out' rest
  end.

(** [if name in date_filter: df_out = df_out[part(created_date) == int(date_filter[name])]]. *)
Definition date_step (name : string) (part : Timestamp -> Z)
    (date_filter : pyval) (df_out : DataFrame) : outcome DataFrame :=
  present <- py_in name date_filter ;;
  if present then
    raw <- getitem date_filter name ;;
    n <- Py.int raw ;;
    Return (filter (fun t => (part (created_date t) =? n)%Z) df_out)
  else Return df_out.

Definition apply_filters (df_in : DataFrame) (filters date_filter : pyval) : outcome DataFrame :=
  let df_out := df_in in
  df_out <- (if Py.truthy filters
             then entries <- items filters ;; filter_loop df_out entries
             else Return df_out) ;;
  if Py.truthy date_filter then
    df_out <- date_step "month" month date_filter df_out ;;
    date_step "year" year date_filter df_out
  else Return df_out.

(** What a tool hands back to the endpoint: a message, the matching
    rows ([to_dict(orient="records")]), or the group sizes
    ([result.to_dict()], keys in the ascending order [groupby] leaves
    them in). *)
Inductive result : Type :=
| RText (s : string)
| RRecords (rows : list Ticket)
| RSizes (sizes : list (pyval * nat)).

Definition total_msg (n : nat) : string := "Total tickets: " ++ Py.str_of_nat n.

Definition count_tickets (df : DataFrame) (filters date_filter : pyval) : outcome result :=
  filtered_df <- apply_filters df filters date_filter ;;
  Return (RText (total_msg (List.length filtered_df))).

Definition NO_TICKETS : string := "No tickets found matching the criteria.".

Definition filter_tickets (df : DataFrame) (filters date_filter : pyval) : outcome result :=
  filtered_df <- apply_filters df filters date_filter ;;
  match filtered_df with
  | [] => Return (RText NO_TICKETS)
  | _ => Return (RRecords filtered_df)
  end.

(** The counting of [groupby(key).size()]: one entry per distinct key
    with the number of times it occurs, entries kept in ascending key
    order.  It is run on the keys that are present ([dropna]). *)
Section GroupSizes.
Variable K : Type.
Variable cmp : K -> K -> comparison.

Fixpoint bump (k : K) (sizes : list (K * nat)) : list (K * nat) :=
  match sizes with
  | [] => [(k, 1)]
  | (k', n) :: rest =>
      match cmp k k' with
      | Eq => (k', S n) :: rest
      | Lt => (k, 1) :: sizes
      | Gt => (k', n) :: bump k rest
      end
  end.

Definition group_sizes (keys : list K) : list (K * nat) :=
  fold_left (fun acc k => bump k acc) keys [].
End GroupSizes.

Arguments bump {K} cmp k sizes.
Arguments group_sizes {K} cmp keys.

Definition INVALID_GROUP_BY : string := "Invalid group_by column.".
Definition NO_DATA : string := "No data available for grouping.".

Definition keyed {K : Type} (inj : K -> pyval) (sizes : list (K * nat)) : list (pyval * nat) :=
  map (fun p => (inj (fst p), snd p)) sizes.

(** Past the allow-list test [group_by] is text, one of the six names;
    the two [KeyError] branches stand for a [groupby] on something that
    is not a column and are never reached.  Rows with a missing cell in
    the grouping column belong to no group, so a non-empty selection
    can come back with fewer rows counted than selected, or with no
    group at all. *)
Definition group_by_tickets (df : DataFrame) (group_by filters date_filter : pyval)
    : outcome result :=
  allowed <- in_set group_by ALLOWED_GROUP_BY ;;
  if negb allowed then Return (RText INVALID_GROUP_BY)
  else
    filtered_df <- apply_filters df filters date_filter ;;
    match filtered_df with
    | [] => Return (RText NO_DATA)
    | _ =>
        match group_by with
        | PStr col =>
            if (col =? "month")%string then
              Return (RSizes (keyed PInt
                (group_sizes Z.compare (map (fun t => month (created_date t)) filtered_df))))
            else
              match text_column col with
              | Some field =>
                  Return (RSizes (keyed PStr
                    (group_sizes String.compare (dropna (map field filtered_df)))))
              | None => Raise KeyError
              end
        | _ => Raise KeyError
        end
    end.

(* ================================================================== *)
(** ** STEP 6: the tool map, and calling a tool with keyword arguments *)

(** Calling [f] with the dict [kw] unpacked as keyword arguments binds
    each entry of [kw] to the parameter of that name.
    A name that [f] does not declare is a [TypeError]; so is a
    parameter without a default that [kw] leaves out. *)
Definition only_keywords (params : list string) (kw : list (string * pyval)) : outcome unit :=
  if forallb (fun p => mem (fst p) params) kw then Return tt else Raise TypeError.

Definition keyword (name : string) (default : option pyval) (kw : list (string * pyval))
    : outcome pyval :=
  match Py.lookup name kw with
  | Some v => Return v
  | None =>
      match default with
      | Some d => Return d
      | None => Raise TypeError
      end
  end.

Definition callable : Type := DataFrame -> list (string * pyval) -> outcome result.

Definition call_count_tickets : callable := fun df kw =>
  _ <- only_keywords ["filters"; "date_filter"] kw ;;
  filters <- keyword "filters" (Some PNone) kw ;;
  date_filter <- keyword "date_filter" (Some PNone) kw ;;
  count_tickets df filters date_filter.

Definition call_filter_tickets : callable := fun df kw =>
  _ <- only_keywords ["filters"; "date_filter"] kw ;;
  filters <- keyword "filters" (Some PNone) kw ;;
  date_filter <- keyword "date_filter" (Some PNone) kw ;;
  filter_tickets df filters date_filter.

Definition call_group_by_tickets : callable := fun df kw =>
  _ <- only_keywords ["group_by"; "filters"; "date_filter"] kw ;;
  group_by <- keyword "group_by" None kw ;;
  filters <- keyword "filters" (Some PNone) kw ;;
  date_filter <- keyword "date_filter" (Some PNone) kw ;;
  group_by_tickets df group_by filters date_filter.

Definition tool_map : list (string * callable) :=
  [ ("count_tickets", call_count_tickets);
    ("filter_tickets", call_filter_tickets);
    ("group_by_tickets", call_group_by_tickets) ].

Definition tool_names : list string := map fst tool_map.

(** [tool_map[tool_name]]. *)
Fixpoint tool_map_get (tool_name : string) (entries : list (string * callable))
    : outcome callable :=
  match entries with
  | [] => Raise KeyError
  | (name, f) :: rest =>
      if (name =? tool_name)%string then Return f else tool_map_get tool_name rest
  end.

(** Unpacking [args] as keyword arguments needs a mapping. *)
Definition unpack (args : pyval) : outcome (list (string * pyval)) :=
  match args with
  | PDict kw => Return kw
  | _ => Raise TypeError
  end.

(* ================================================================== *)
(** ** STEP 9: the chat endpoint, from the model's tool calls on *)

Record reply_body : Type := mkReply { reply : result }.

Definition NOT_A_TICKET_QUESTION : string :=
  "I can answer questions related to incident tickets only.".

(** [tool_calls] is the list the language model answered with, each
    call as its function name and its arguments already decoded from
    JSON.  Only the first call is served. *)
Definition chat (df : DataFrame) (tool_calls : list (string * pyval)) : outcome reply_body :=
  match tool_calls with
  | [] => Return (mkReply (RText NOT_A_TICKET_QUESTION))
  | (tool_name, args) :: _ =>
      f <- tool_map_get tool_name tool_map ;;
      kw <- unpack args ;;
      result <- f df kw ;;
      Return (mkReply result)
  end.

(* ================================================================== *)
(** ** The month tool of the prototype [test2.py] *)

Module Prototype.

Definition INVALID_MONTH : string :=
  "Invalid month. Please provide a month between 1 and 12.".

Definition tickets_for_month (df : DataFrame) (month_arg : Z) : string :=
  if ((month_arg <? 1) || (month_arg >? 12))%Z then INVALID_MONTH
  else
    let filtered := filter (fun t => (month (created_date t) =? month_arg)%Z) df in
    "Tickets created in month " ++ Py.str_of_Z month_arg ++ ": "
      ++ Py.str_of_nat (List.length filtered).

End Prototype.

(* ================================================================== *)
(** ** A three-ticket table to run the tools on *)

Definition on_day (y m d : Z) : Timestamp := mkTimestamp y m d.

Definition acme_open : Ticket :=
  mkTicket "T1" (Some "Acme") (Some "open") (Some "high") (Some "network") (Some "ana")
    (on_day 2024 1 5) None.
Definition acme_closed : Ticket :=
  mkTicket "T2" (Some "Acme") (Some "closed") (Some "low") (Some "billing") (Some "bo")
    (on_day 2024 2 10) (Some (on_day 2024 2 12)).
Definition beta_open : Ticket :=
  mkTicket "T3" (Some "Beta") (Some "open") (Some "high") (Some "network") (Some "ana")
    (on_day 2024 1 20) None.

Definition three_tickets : DataFrame := [acme_open; acme_closed; beta_open].



(* ================================================================== *)
(** ** What [apply_filters] selects

    The rows that survive depend on the arguments only through one
    predicate on rows; the table is then filtered once by it.  The
    definitions below name that predicate; [apply_filters_selection]
    proves that the code computes exactly this. *)

Definition row_matches (item : string * pyval) (t : Ticket) : bool :=
  let '(col, value) := item in
  if mem col ALLOWED_FILTERS then
    match text_column col with
    | Some field => lower_is (field t) (Py.lower (Py.str value))
    | None => true
    end
  else true.

Definition rows_match (entries : list (string * pyval)) (t : Ticket) : bool :=
  forallb (fun item => row_matches item t) entries.

Definition chosen_entries (filters : pyval) : outcome (list (string * pyval)) :=
  if Py.truthy filters then items filters else Return [].

Definition date_bound (name : string) (date_filter : pyval) : outcome (option Z) :=
  present <- py_in name date_filter ;;
  if present then
    raw <- getitem date_filter name ;;
    n <- Py.int raw ;;
    Return (Some n)
  else Return None.

Definition date_ok (part : Timestamp -> Z) (bound : option Z) (t : Ticket) : bool :=
  match bound with
  | Some n => (part (created_date t) =? n)%Z
  | None => true
  end.

Definition selection (filters date_filter : pyval) : outcome (Ticket -> bool) :=
  entries <- chosen_entries filters ;;
  if Py.truthy date_filter then
    m <- date_bound "month" date_filter ;;
    y <- date_bound "year" date_filter ;;
    Return (fun t => rows_match entries t && date_ok month m t && date_ok year y t)
  else Return (rows_match entries).

(** [out] is [df] with some rows left out: same rows, same order. *)
Inductive subseq {A : Type} : list A -> list A -> Prop :=
| subseq_nil : subseq [] []
| subseq_keep : forall x out df, subseq out df -> subseq (x :: out) (x :: df)
| subseq_drop : forall x out df, subseq out df -> subseq out (x :: df).


(** A date value that [int] refuses with the exception [e]. *)
Definition refused_by_int (name : string) (kv : list (string * pyval)) (e : pyerr) : Prop :=
  exists v, Py.lookup name kv = Some v /\ Py.int v = Raise e.

(** A date value that is absent, or that [int] accepts. *)
Definition passes_int (name : string) (kv : list (string * pyval)) : Prop :=
  Py.lookup name kv = None \/ exists v z, Py.lookup name kv = Some v /\ Py.int v = Return z.

(* ================================================================== *)
(** ** STEP 5: the tools offered to the language model *)

Record tool_schema : Type := mkTool {
  name : string;
  properties : list string;
  required : list string
}.

Definition tools : list tool_schema :=
  [ mkTool "count_tickets" ["filters"; "date_filter"] [];
    mkTool "filter_tickets" ["filters"; "date_filter"] [];
    mkTool "group_by_tickets" ["group_by"; "filters"; "date_filter"] ["group_by"] ].

(* ================================================================== *)
(** ** The other tools of the prototype [test2.py] *)

Module Test2.

(** The prototype keeps its allow-list as a dict from the accepted
    name to the column it stands for. *)
Definition ALLOWED_FILTERS : list (string * string) :=
  [ ("company", "company");
    ("status", "status");
    ("priority", "priority");
    ("category", "category");
    ("assigned_to", "assigned_to") ].

Fixpoint allowed_column (col : string) (table : list (string * string)) : option string :=
  match table with
  | [] => None
  | (k, c) :: rest => if (k =? col)%string then Some c else allowed_column col rest
  end.

Definition count_open_tickets (df : DataFrame) : string :=
  "Total open tickets: "
    ++ Py.str_of_nat (List.length (filter (fun t => cell_is (status t) "open") df)).

(** The four columns the high-priority tool keeps of a row. *)
Record high_row : Type := mkHigh {
  h_ticket_id : string;
  h_company : cell;
  h_status : cell;
  h_created_date : Timestamp
}.

Definition project (t : Ticket) : high_row :=
  mkHigh (ticket_id t) (company t) (status t) (created_date t).

Inductive answer : Type :=
| Plain (r : result)
| HighRecords (rows : list high_row).

Definition NO_HIGH : string := "No high priority tickets found.".

Definition get_high_priority_tickets (df : DataFrame) : answer :=
  let high := filter (fun t => cell_is (priority t) "high") df in
  match high with
  | [] => Plain (RText NO_HIGH)
  | _ => HighRecords (map project high)
  end.

(** [datetime.now()] is an input: the clock the process reads. *)
Definition tickets_this_month (df : DataFrame) (now : Timestamp) : string :=
  let filtered :=
    filter (fun t => (month (created_date t) =? month now)%Z
                     && (year (created_date t) =? year now)%Z) df in
  "Tickets created this month: " ++ Py.str_of_nat (List.length filtered).

(** [value.lower()]: only text has the method. *)
Definition lower_method (v : pyval) : outcome string :=
  match v with
  | PStr s => Return (Py.lower s)
  | _ => Raise AttributeError
  end.

Definition filter_step (filtered_df : DataFrame) (item : string * pyval) : outcome DataFrame :=
  let '(col, value) := item in
  match allowed_column col ALLOWED_FILTERS with
  | Some c =>
      match text_column c with
      | Some field =>
          wanted <- lower_method value ;;
          Return (filter (fun t => lower_is (field t) wanted) filtered_df)
      | None => Raise KeyError
      end
  | None => Return filtered_df
  end.

Fixpoint filter_loop (filtered_df : DataFrame) (entries : list (string * pyval))
    : outcome DataFrame :=
  match entries with
  | [] => Return filtered_df
  | item :: rest =>
      filtered_df' <- filter_step filtered_df item ;;
      filter_loop filtered_df' rest
  end.

Definition filter_tickets (df : DataFrame) (filters : pyval) : outcome result :=
  entries <- items filters ;;
  filtered_df <- filter_loop df entries ;;
  match filtered_df with
  | [] => Return (RText NO_TICKETS)
  | _ => Return (RRecords filtered_df)
  end.

(** [tickets_for_month] as the endpoint calls it, with whatever value
    the arguments carry: the comparisons with 1 and 12 need a number (a
    bool counts as 0 or 1 and prints as itself; a float compares by its
    value, NaN being neither below 1 nor above 12 nor equal to any
    month), anything else is a [TypeError]. *)
Definition tickets_for_month_value (df : DataFrame) (month_arg : pyval) : outcome string :=
  match month_arg with
  | PInt z => Return (Prototype.tickets_for_month df z)
  | PBool b =>
      let z := (if b then 1 else 0)%Z in
      if ((z <? 1) || (z >? 12))%Z then Return Prototype.INVALID_MONTH
      else
        let filtered := filter (fun t => (month (created_date t) =? z)%Z) df in
        Return ("Tickets created in month " ++ Py.str month_arg ++ ": "
                  ++ Py.str_of_nat (List.length filtered))
  | PFloat x =>
      let invalid :=
        match x with
        | Finite whole exact _ => ((whole <? 1) || (whole >? 12) || ((whole =? 12) && negb exact))%Z
        | Infinity _ => true
        | NaN => false
        end in
      if invalid then Return Prototype.INVALID_MONTH
      else
        let filtered :=
          filter (fun t => match x with
                           | Finite whole true _ => (month (created_date t) =? whole)%Z
                           | _ => false
                           end) df in
        Return ("Tickets created in month " ++ Py.str month_arg ++ ": "
                  ++ Py.str_of_nat (List.length filtered))
  | _ => Raise TypeError
  end.

(** The names of the five tools of the prototype's [tools] list. *)
Definition tools : list string :=
  [ "count_open_tickets"; "get_high_priority_tickets"; "tickets_this_month";
    "tickets_for_month"; "filter_tickets" ].

Definition callable : Type :=
  DataFrame -> Timestamp -> list (string * pyval) -> outcome answer.

Definition call_count_open_tickets : callable := fun df now kw =>
  _ <- only_keywords [] kw ;;
  Return (Plain (RText (count_open_tickets df))).

Definition call_get_high_priority_tickets : callable := fun df now kw =>
  _ <- only_keywords [] kw ;;
  Return (get_high_priority_tickets df).

Definition call_tickets_this_month : callable := fun df now kw =>
  _ <- only_keywords [] kw ;;
  Return (Plain (RText (tickets_this_month df now))).

Definition call_tickets_for_month : callable := fun df now kw =>
  _ <- only_keywords ["month"] kw ;;
  month_arg <- keyword "month" None kw ;;
  s <- tickets_for_month_value df month_arg ;;
  Return (Plain (RText s)).

Definition tool_map : list (string * callable) :=
  [ ("count_open_tickets", call_count_open_tickets);
    ("get_high_priority_tickets", call_get_high_priority_tickets);
    ("tickets_this_month", call_tickets_this_month);
    ("tickets_for_month", call_tickets_for_month) ].

Fixpoint tool_map_get (tool_name : string) (entries : list (string * callable))
    : outcome callable :=
  match entries with
  | [] => Raise KeyError
  | (k, f) :: rest =>
      if (k =? tool_name)%string then Return f else tool_map_get tool_name rest
  end.

Definition chat (df : DataFrame) (now : Timestamp) (tool_calls : list (string * pyval))
    : outcome answer :=
  match tool_calls with
  | [] => Return (Plain (RText NOT_A_TICKET_QUESTION))
  | (tool_name, args) :: _ =>
      f <- tool_map_get tool_name tool_map ;;
      kw <- unpack args ;;
      f df now kw
  end.

End Test2.

(* ================================================================== *)
(** ** Reading a table of group sizes *)

Section SizeTable.
Variable K : Type.
Variable cmp : K -> K -> comparison.

(** The size recorded for [k], 0 when [k] has no entry. *)
Fixpoint size_of (k : K) (sizes : list (K * nat)) : nat :=
  match sizes with
  | [] => 0
  | (k', n) :: rest =>
      match cmp k k' with
      | Eq => n
      | _ => size_of k rest
      end
  end.

(** How many of [keys] compare equal to [k]. *)
Definition occurrences (k : K) (keys : list K) : nat :=
  List.length (filter (fun k' => match cmp k k' with Eq => true | _ => false end) keys).

(** Keys strictly ascending from left to right. *)
Inductive ascending : list (K * nat) -> Prop :=
| ascending_nil : ascending []
| ascending_cons : forall k n rest,
    Forall (fun p => cmp k (fst p) = Lt) rest -> ascending rest -> ascending ((k, n) :: rest).

(** [cmp] is a strict total order that decides equality. *)
Record total_order : Prop := {
  cmp_eq : forall a b, cmp a b = Eq <-> a = b;
  cmp_opp : forall a b, cmp a b = CompOpp (cmp b a);
  cmp_trans : forall a b c, cmp a b = Lt -> cmp b c = Lt -> cmp a c = Lt
}.
End SizeTable.

Arguments size_of {K} cmp k sizes.
Arguments occurrences {K} cmp k keys.
Arguments ascending {K} cmp sizes.
Arguments total_order {K} cmp.
Arguments cmp_eq {K cmp} _ a b.
Arguments cmp_opp {K cmp} _ a b.
Arguments cmp_trans {K cmp} _ a b c _ _.

(** A date value that is absent ([None]) or that [int] turns into the
    integer [z] ([Some z]). *)
Definition read_as (name : string) (kv : list (string * pyval)) (bound : option Z) : Prop :=
  match bound with
  | None => Py.lookup name kv = None
  | Some z => exists v, Py.lookup name kv = Some v /\ Py.int v = Return z
  end.


(** An outcome other than the KeyError of a failed lookup. *)
Definition no_KeyError {A : Type} (c : outcome A) : Prop := c <> Raise KeyError.

(* ================================================================== *)
(** ** The tools on concrete inputs *)

Example count_open :
  count_tickets three_tickets (PDict [("status", PStr "open")]) (PDict [])
  = Return (RText "Total tickets: 2").
Proof. reflexivity. Qed.

Example group_company_january :
  group_by_tickets three_tickets (PStr "company") (PDict []) (PDict [("month", PInt 1)])
  = Return (RSizes [(PStr "Acme", 1); (PStr "Beta", 1)]).
Proof. reflexivity. Qed.

Example group_month :
  group_by_tickets three_tickets (PStr "month") PNone PNone
  = Return (RSizes [(PInt 1, 2); (PInt 2, 1)]).
Proof. reflexivity. Qed.

Example list_unknown_company :
  filter_tickets three_tickets (PDict [("company", PStr "Zzz")]) (PDict [])
  = Return (RText NO_TICKETS).
Proof. reflexivity. Qed.

Example chat_count :
  chat three_tickets
    [("count_tickets", PDict [("filters", PDict [("company", PStr "ACME")])])]
  = Return (mkReply (RText "Total tickets: 2")).
Proof. reflexivity. Qed.

Example chat_nothing : chat three_tickets [] = Return (mkReply (RText NOT_A_TICKET_QUESTION)).
Proof. reflexivity. Qed.

Example lower_OPEN : Py.lower "OPEN" = "open". Proof. reflexivity. Qed.

Example int_3 : Py.int (PStr " +1_3 ") = Return 13%Z. Proof. reflexivity. Qed.

Example int_abc : Py.int (PStr "abc") = Raise ValueError. Proof. reflexivity. Qed.

Example int_bad_us : Py.int (PStr "1__3") = Raise ValueError. Proof. reflexivity. Qed.

Example str_m5 : Py.str (PInt (-5)) = "-5". Proof. reflexivity. Qed.

Example str_dict : Py.str (PDict [("a", PInt 1); ("b", PStr "it's")]) = "{'a': 1, 'b': " ++ String Py.dquote ("it's" ++ String Py.dquote "}").
Proof. reflexivity. Qed.

Example str_0 : Py.str_of_nat 0 = "0". Proof. reflexivity. Qed.

(* ================================================================== *)
(** ** Lists, masks and printed numbers *)

Lemma filter_all {A : Type} (l : list A) : filter (fun _ => true) l = l.
Proof. induction l as [|x l IH]; simpl; [reflexivity | now rewrite IH]. Qed.

Lemma filter_twice {A : Type} (p q : A -> bool) (l : list A) :
  filter q (filter p l) = filter (fun x => p x && q x) l.
Proof.
  induction l as [|x l IH]; simpl; [reflexivity|].
  destruct (p x); simpl; [destruct (q x)|]; now rewrite IH.
Qed.

Lemma filter_swap {A : Type} (p q : A -> bool) (l : list A) :
  filter q (filter p l) = filter p (filter q l).
Proof.
  rewrite !filter_twice. apply filter_ext. intro x. apply andb_comm.
Qed.

Lemma subseq_filter {A : Type} (p : A -> bool) (l : list A) : subseq (filter p l) l.
Proof.
  induction l as [|x l IH]; simpl.
  - constructor.
  - destruct (p x); now constructor.
Qed.

Lemma subseq_In {A : Type} (out l : list A) : subseq out l -> forall x, In x out -> In x l.
Proof.
  induction 1 as [|x out l _ IH|x out l _ IH]; intros y Hy; simpl in *.
  - exact Hy.
  - destruct Hy as [->|Hy]; [now left | right; now apply IH].
  - right; now apply IH.
Qed.

Lemma subseq_length {A : Type} (out l : list A) : subseq out l -> List.length out <= List.length l.
Proof. induction 1; simpl; lia. Qed.

Lemma str_of_nat_inj (n m : nat) : Py.str_of_nat n = Py.str_of_nat m -> n = m.
Proof.
  unfold Py.str_of_nat. intro H.
  apply DecimalNat.Unsigned.to_uint_inj.
  assert (E : Some (Nat.to_uint n) = Some (Nat.to_uint m))
    by (rewrite <- !NilEmpty.usu; now rewrite H).
  now inversion E.
Qed.

Lemma append_inj_r (p a b : string) : p ++ a = p ++ b -> a = b.
Proof. induction p as [|c p IH]; simpl; intro H; [exact H | inversion H; auto]. Qed.

Lemma total_msg_inj (n m : nat) : total_msg n = total_msg m -> n = m.
Proof. unfold total_msg. intro H. now apply str_of_nat_inj, (append_inj_r "Total tickets: "). Qed.

(* ================================================================== *)
(** ** The filter loop and the date steps *)

Lemma mem_In (s : string) (names : list string) : mem s names = true <-> In s names.
Proof.
  unfold mem. rewrite existsb_exists. split.
  - intros (x & Hx & E). apply String.eqb_eq in E. now subst.
  - intro H. exists s. split; [exact H | apply String.eqb_refl].
Qed.

Lemma allowed_filter_column (col : string) :
  mem col ALLOWED_FILTERS = true -> exists field, text_column col = Some field.
Proof.
  unfold mem, ALLOWED_FILTERS, text_column. simpl.
  destruct (col =? "company")%string; [eauto|].
  destruct (col =? "status")%string; [eauto|].
  destruct (col =? "priority")%string; [eauto|].
  destruct (col =? "category")%string; [eauto|].
  destruct (col =? "assigned_to")%string; [eauto|].
  discriminate.
Qed.

Lemma filter_step_spec (df : DataFrame) (item : string * pyval) :
  filter_step df item = Return (filter (row_matches item) df).
Proof.
  destruct item as [col value]. unfold filter_step, row_matches.
  destruct (mem col ALLOWED_FILTERS) eqn:Hm.
  - destruct (allowed_filter_column col Hm) as [field ->]. reflexivity.
  - now rewrite filter_all.
Qed.

Lemma filter_loop_spec (entries : list (string * pyval)) :
  forall df, filter_loop df entries = Return (filter (rows_match entries) df).
Proof.
  induction entries as [|item rest IH]; intro df; simpl.
  - now rewrite filter_all.
  - rewrite filter_step_spec. simpl. rewrite IH, filter_twice. reflexivity.
Qed.

Lemma date_step_spec (name : string) (part : Timestamp -> Z) (d : pyval) (df : DataFrame) :
  date_step name part d df =
  (b <- date_bound name d ;; Return (filter (date_ok part b) df)).
Proof.
  unfold date_step, date_bound.
  destruct (py_in name d) as [present|e]; simpl; [|reflexivity].
  destruct present; simpl.
  - destruct (getitem d name) as [raw|e]; simpl; [|reflexivity].
    destruct (Py.int raw) as [n|e]; reflexivity.
  - now rewrite filter_all.
Qed.

(** The engine is one mask over the table, fixed by the arguments. *)
Lemma apply_filters_selection (df : DataFrame) (f d : pyval) :
  apply_filters df f d = (p <- selection f d ;; Return (filter p df)).
Proof.
  unfold apply_filters, selection, chosen_entries.
  assert (E : (if Py.truthy f then entries <- items f ;; filter_loop df entries else Return df)
              = (entries <- (if Py.truthy f then items f else Return []) ;;
                 Return (filter (rows_match entries) df))).
  { destruct (Py.truthy f); simpl.
    - destruct (items f) as [entries|e]; simpl; [apply filter_loop_spec | reflexivity].
    - now rewrite filter_all. }
  rewrite E. clear E.
  destruct (if Py.truthy f then items f else Return []) as [entries|e]; simpl; [|reflexivity].
  destruct (Py.truthy d); [|reflexivity].
  rewrite date_step_spec.
  destruct (date_bound "month" d) as [m|e]; simpl; [|reflexivity].
  rewrite date_step_spec.
  destruct (date_bound "year" d) as [y|e]; simpl; [|reflexivity].
  rewrite !filter_twice. f_equal. apply filter_ext. intro t. apply andb_assoc.
Qed.

Lemma apply_filters_cases (df : DataFrame) (f d : pyval) :
  (exists e, apply_filters df f d = Raise e /\ selection f d = Raise e) \/
  (exists p, apply_filters df f d = Return (filter p df) /\ selection f d = Return p).
Proof.
  rewrite apply_filters_selection.
  destruct (selection f d) as [p|e]; simpl; [right | left]; eauto.
Qed.

(* ================================================================== *)
(** ** Group sizes *)




Lemma allowed_group_column (g : string) :
  mem g ALLOWED_GROUP_BY = true -> (g =? "month")%string = false ->
  exists field, text_column g = Some field.
Proof.
  intros Hg Hm. apply allowed_filter_column.
  unfold mem, ALLOWED_GROUP_BY, ALLOWED_FILTERS in *. simpl in *.
  rewrite Hm in Hg. now rewrite !orb_false_r in *.
Qed.

(* ================================================================== *)
(** ** Properties of the query tools *)

(** C10.  Whatever the filters and the date filter, the rows that
    [apply_filters] returns are a subsequence of the table it was given:
    each returned row is a row of the table, none is repeated or made
    up, and the rows keep the order they have in the table. *)
Theorem apply_filters_subseq (df out : DataFrame) (filters date_filter : pyval) :
  apply_filters df filters date_filter = Return out ->
  subseq out df /\ (forall t, In t out -> In t df) /\ List.length out <= List.length df.
Proof.
  intro H.
  assert (S : subseq out df).
  { destruct (apply_filters_cases df filters date_filter) as [(e & E & _)|(p & E & _)];
      rewrite E in H; inversion H. apply subseq_filter. }
  split; [exact S|]. split; [now apply subseq_In | now apply subseq_length].
Qed.

Lemma apply_filters_subseq_witness :
  apply_filters three_tickets (PDict [("status", PStr "open")]) (PDict [("year", PInt 2024)])
    = Return [acme_open; beta_open]
  /\ subseq [acme_open; beta_open] three_tickets.
Proof.
  split; [reflexivity|].
  apply (apply_filters_subseq three_tickets [acme_open; beta_open]
           (PDict [("status", PStr "open")]) (PDict [("year", PInt 2024)])).
  reflexivity.
Defined.

(** C3.  [count_tickets] and [filter_tickets] agree on every filter
    specification: either both stop with the same exception of the
    filter engine, or the count [n] printed by [count_tickets] is the
    number of rows [filter_tickets] returns when there are any, and
    [filter_tickets] returns the no-tickets marker exactly when [n] is 0. *)
Theorem count_matches_list (df : DataFrame) (filters date_filter : pyval) :
  (exists e, count_tickets df filters date_filter = Raise e
             /\ filter_tickets df filters date_filter = Raise e)
  \/
  (exists n, count_tickets df filters date_filter = Return (RText (total_msg n))
             /\ (n = 0 <-> filter_tickets df filters date_filter = Return (RText NO_TICKETS))
             /\ (n <> 0 -> exists rows,
                   filter_tickets df filters date_filter = Return (RRecords rows)
                   /\ List.length rows = n)).
Proof.
  unfold count_tickets, filter_tickets.
  destruct (apply_filters df filters date_filter) as [out|e]; simpl.
  - right. exists (List.length out). split; [reflexivity|].
    destruct out as [|t out]; simpl.
    + split; [tauto|]. intro H. now contradiction H.
    + split; [split; discriminate|]. intros _. eauto.
  - left. eauto.
Qed.




(** C5.  A group key that is not in [ALLOWED_GROUP_BY] (such as
    [ticket_id]) makes [group_by_tickets] return the invalid-column
    message as its result.  No exception is raised and no group sizes
    are returned, and the answer does not depend on the table, the
    filters or the date filter: the key is rejected before the filter
    engine runs, so even arguments the engine would raise on do not
    matter. *)
Theorem invalid_group_key_rejected (df : DataFrame) (g : string) (filters date_filter : pyval) :
  ~ In g ALLOWED_GROUP_BY ->
  group_by_tickets df (PStr g) filters date_filter = Return (RText INVALID_GROUP_BY).
Proof.
  intro Hg. unfold group_by_tickets, in_set.
  destruct (mem g ALLOWED_GROUP_BY) eqn:Hm; [|reflexivity].
  apply mem_In in Hm. contradiction.
Qed.

Lemma invalid_group_key_rejected_witness :
  apply_filters three_tickets (PInt 7) (PDict [("month", PStr "abc")]) = Raise AttributeError
  /\ group_by_tickets three_tickets (PStr "ticket_id") (PInt 7) (PDict [("month", PStr "abc")])
     = Return (RText "Invalid group_by column.").
Proof.
  split; [reflexivity|].
  apply (invalid_group_key_rejected three_tickets "ticket_id").
  simpl. intros [H|[H|[H|[H|[H|[H|[]]]]]]]; discriminate H.
Defined.

(* ================================================================== *)
(** ** Properties of the filter engine *)

Lemma apply_filters_dict (df : DataFrame) (kv : list (string * pyval)) (d : pyval) :
  apply_filters df (PDict kv) d = apply_filters (filter (rows_match kv) df) PNone d.
Proof.
  unfold apply_filters. destruct kv as [|item rest].
  - simpl. now rewrite filter_all.
  - cbn [Py.truthy items bind]. now rewrite filter_loop_spec.
Qed.

Lemma rows_match_allowed (kv : list (string * pyval)) (t : Ticket) :
  rows_match (filter (fun item => mem (fst item) ALLOWED_FILTERS) kv) t = rows_match kv t.
Proof.
  unfold rows_match. induction kv as [|[col value] rest IH]; [reflexivity|].
  cbn [filter fst]. destruct (mem col ALLOWED_FILTERS) eqn:Hm; cbn [forallb].
  - now rewrite IH.
  - rewrite IH. unfold row_matches. now rewrite Hm.
Qed.

Lemma rows_match_app (kv1 kv2 : list (string * pyval)) (t : Ticket) :
  rows_match (kv1 ++ kv2)%list t = rows_match kv1 t && rows_match kv2 t.
Proof. unfold rows_match. apply forallb_app. Qed.

Lemma row_matches_lower (col : string) (v1 v2 : pyval) (t : Ticket) :
  Py.lower (Py.str v1) = Py.lower (Py.str v2) ->
  row_matches (col, v1) t = row_matches (col, v2) t.
Proof. intro H. unfold row_matches. now rewrite H. Qed.

(** With one allow-listed field, the rows kept are exactly those whose
    field, lower-cased, equals the lower-cased text of the value. *)
Lemma single_filter_rows (df : DataFrame) (col : string) (field : Ticket -> cell) (v : pyval) :
  mem col ALLOWED_FILTERS = true -> text_column col = Some field ->
  apply_filters df (PDict [(col, v)]) PNone
  = Return (filter (fun t => lower_is (field t) (Py.lower (Py.str v))) df).
Proof.
  intros Hm Hc. unfold apply_filters. cbn [Py.truthy items bind filter_loop filter_step].
  rewrite Hm, Hc. reflexivity.
Qed.

(** C8.  Entries of the filter mapping whose field is outside
    [ALLOWED_FILTERS] have no effect: the engine's outcome, rows and
    exceptions alike, is the one it has on the mapping with those
    entries removed. *)
Theorem unlisted_filters_ignored (df : DataFrame) (kv : list (string * pyval)) (date_filter : pyval) :
  apply_filters df (PDict kv) date_filter
  = apply_filters df (PDict (filter (fun item => mem (fst item) ALLOWED_FILTERS) kv)) date_filter.
Proof.
  rewrite !apply_filters_dict. f_equal.
  apply filter_ext. intro t. symmetry. apply rows_match_allowed.
Qed.

(** C7.  Filter values are compared without regard to case.  Two values
    whose text has the same lower-case form, such as OPEN and open, can
    stand for each other in any entry of the filter mapping: the engine
    returns the same rows. *)
Theorem filter_value_case_insensitive (df : DataFrame) (col : string) (v1 v2 : pyval)
    (before after : list (string * pyval)) (date_filter : pyval) :
  Py.lower (Py.str v1) = Py.lower (Py.str v2) ->
  apply_filters df (PDict (before ++ (col, v1) :: after)%list) date_filter
  = apply_filters df (PDict (before ++ (col, v2) :: after)%list) date_filter.
Proof.
  intro H. rewrite !apply_filters_dict. f_equal.
  apply filter_ext. intro t.
  rewrite !rows_match_app. f_equal.
  unfold rows_match. simpl. f_equal. now apply row_matches_lower.
Qed.

Lemma filter_value_case_insensitive_witness :
  apply_filters three_tickets (PDict [("status", PStr "OPEN")]) PNone
    = apply_filters three_tickets (PDict [("status", PStr "open")]) PNone
  /\ apply_filters three_tickets (PDict [("status", PStr "OPEN")]) PNone
     = Return [acme_open; beta_open].
Proof.
  split; [|reflexivity].
  apply (filter_value_case_insensitive three_tickets "status" (PStr "OPEN") (PStr "open")
           [] [] PNone).
  reflexivity.
Defined.

(** C6.  On every table, filtering by company Acme together with month 3
    returns exactly the rows common to the two single filters.  The
    company filter alone returns the rows of the table whose company
    reads acme in lower case, the month filter alone the rows created
    in a month 3, and the joint filter the rows of the table that
    satisfy both, in table order: a row is in the joint result if and
    only if it is in the company-only result and in the month-only
    result, which is if and only if it is a row of the table with that
    company and that month. *)
Theorem company_and_month_intersect (df : DataFrame) :
  exists both by_company by_month : DataFrame,
    apply_filters df (PDict [("company", PStr "Acme")]) (PDict [("month", PInt 3)]) = Return both
    /\ apply_filters df (PDict [("company", PStr "Acme")]) PNone = Return by_company
    /\ apply_filters df PNone (PDict [("month", PInt 3)]) = Return by_month
    /\ by_company = filter (fun t => lower_is (company t) "acme") df
    /\ by_month = filter (fun t => (month (created_date t) =? 3)%Z) df
    /\ both = filter (fun t => lower_is (company t) "acme"
                               && (month (created_date t) =? 3)%Z) df
    /\ (forall t, In t both <-> In t by_company /\ In t by_month)
    /\ (forall t, In t both
                  <-> In t df
                      /\ (exists s, company t = Some s /\ Py.lower s = "acme")
                      /\ month (created_date t) = 3%Z)
    /\ both = filter (fun t => (month (created_date t) =? 3)%Z) by_company
    /\ both = filter (fun t => lower_is (company t) "acme") by_month.
Proof.
  set (c := fun t : Ticket => lower_is (company t) "acme").
  set (m := fun t : Ticket => (month (created_date t) =? 3)%Z).
  assert (C : forall t, c t = true <-> exists s, company t = Some s /\ Py.lower s = "acme").
  { intro t. unfold c, lower_is. destruct (company t) as [s|].
    - rewrite String.eqb_eq. split.
      + intro H. exists s. split; [reflexivity | exact H].
      + intros (s' & E & H). inversion E. subst. exact H.
    - split; [discriminate|]. intros (s' & E & _). discriminate E. }
  exists (filter m (filter c df)), (filter c df), (filter m df).
  split; [reflexivity|]. split; [reflexivity|]. split; [reflexivity|].
  split; [reflexivity|]. split; [reflexivity|].
  split; [apply filter_twice|].
  split; [intro t; rewrite !filter_In; tauto|].
  split; [|split; [reflexivity | apply filter_swap]].
  intro t. rewrite !filter_In, C. unfold m. rewrite Z.eqb_eq. tauto.
Qed.

(** Conjunction in general: filters and date filter together select the
    rows that the date filter selects among the rows the filters select. *)
Lemma filters_then_dates (df by_fields : DataFrame) (f d : pyval) :
  apply_filters df f PNone = Return by_fields ->
  apply_filters df f d = apply_filters by_fields PNone d.
Proof.
  unfold apply_filters. cbn [Py.truthy].
  destruct (if Py.truthy f then entries <- items f;; filter_loop df entries else Return df)
    as [out|e]; simpl; intro H; inversion H. reflexivity.
Qed.

(* ================================================================== *)
(** ** Values of the date filter that [int] refuses *)

Lemma date_bound_dict (name : string) (kv : list (string * pyval)) :
  date_bound name (PDict kv) =
  match Py.lookup name kv with
  | Some v => n <- Py.int v ;; Return (Some n)
  | None => Return None
  end.
Proof.
  unfold date_bound, py_in, getitem, Py.has_key.
  destruct (Py.lookup name kv); reflexivity.
Qed.

Lemma date_bound_refused (name : string) (kv : list (string * pyval)) (e : pyerr) :
  refused_by_int name kv e -> date_bound name (PDict kv) = Raise e.
Proof. intros (v & L & I). now rewrite date_bound_dict, L, I. Qed.

Lemma date_bound_passes (name : string) (kv : list (string * pyval)) :
  passes_int name kv -> exists b, date_bound name (PDict kv) = Return b.
Proof.
  intros [L|(v & z & L & I)]; rewrite date_bound_dict, L; [|rewrite I]; simpl; eauto.
Qed.

Lemma refused_nonempty (name : string) (kv : list (string * pyval)) (e : pyerr) :
  refused_by_int name kv e -> Py.truthy (PDict kv) = true.
Proof. intros (v & L & _). destruct kv; [discriminate L | reflexivity]. Qed.

Lemma apply_filters_date_dict (df : DataFrame) (f : pyval) (kv : list (string * pyval)) :
  apply_filters df f (PDict kv) =
  (out0 <- apply_filters df f PNone ;;
   m <- date_bound "month" (PDict kv) ;;
   y <- date_bound "year" (PDict kv) ;;
   Return (filter (date_ok year y) (filter (date_ok month m) out0))).
Proof.
  unfold apply_filters. cbn [Py.truthy].
  destruct (if Py.truthy f then entries <- items f;; filter_loop df entries else Return df)
    as [out0|e]; cbn [bind]; [|reflexivity].
  destruct kv as [|item rest].
  - simpl. now rewrite !filter_all.
  - rewrite date_step_spec.
    destruct (date_bound "month" (PDict (item :: rest))) as [m|e]; cbn [bind]; [|reflexivity].
    apply date_step_spec.
Qed.

Lemma int_raises (v : pyval) (e : pyerr) :
  Py.int v = Raise e -> e = TypeError \/ e = ValueError \/ e = OverflowError.
Proof.
  destruct v as [| | |[| |]|s| |]; simpl; intro H; inversion H; auto.
  destruct (Py.int_of_string s); inversion H; auto.
Qed.

Lemma date_bound_read_as (name : string) (kv : list (string * pyval)) (b : option Z) :
  read_as name kv b -> date_bound name (PDict kv) = Return b.
Proof.
  rewrite date_bound_dict. destruct b as [z|]; simpl.
  - intros (v & -> & ->). reflexivity.
  - intros ->. reflexivity.
Qed.

(** C2, as the code has it.  Take a date filter that is a mapping and
    filters that are absent, empty or a mapping, so that the field
    filters raise nothing.  When the month value, or the year value
    after a month that is absent or accepted, is one that [int] refuses
    (None, a list, a dict, text that is not an integer literal, a float
    NaN or infinity), [apply_filters] ends in the exception [int]
    raises, a TypeError, a ValueError or an OverflowError; no result is
    returned.  When month and year are each absent or accepted by [int]
    (an integer, a bool, an integer literal as text, a finite float cut
    to its integer part), no exception is raised and the rows kept are
    the rows selected by the field filters whose month and year of
    creation equal the integers [int] returned. *)
Theorem date_values_go_through_int (df : DataFrame) (filters : pyval)
    (kv : list (string * pyval)) :
  Py.truthy filters = false \/ (exists entries, filters = PDict entries) ->
  exists by_fields,
    apply_filters df filters PNone = Return by_fields
    /\ (forall e,
          refused_by_int "month" kv e \/ (passes_int "month" kv /\ refused_by_int "year" kv e) ->
          apply_filters df filters (PDict kv) = Raise e
          /\ (e = TypeError \/ e = ValueError \/ e = OverflowError))
    /\ (forall m y,
          read_as "month" kv m -> read_as "year" kv y ->
          apply_filters df filters (PDict kv)
          = Return (filter (fun t => date_ok month m t && date_ok year y t) by_fields)).
Proof.
  intro Hf.
  assert (B : exists by_fields, apply_filters df filters PNone = Return by_fields).
  { destruct Hf as [Hf | (entries & Hf)].
    - unfold apply_filters. rewrite Hf. simpl. eauto.
    - subst filters. rewrite apply_filters_dict. unfold apply_filters. simpl. eauto. }
  destruct B as (by_fields & B). exists by_fields. split; [exact B|].
  rewrite apply_filters_date_dict, B. cbn [bind]. split.
  - intros e Hd. split.
    + destruct Hd as [Hm | (Hm & Hy)].
      * now rewrite (date_bound_refused _ _ _ Hm).
      * destruct (date_bound_passes _ _ Hm) as (b & ->). cbn [bind].
        now rewrite (date_bound_refused _ _ _ Hy).
    + destruct Hd as [(v & _ & I) | (_ & v & _ & I)]; exact (int_raises v e I).
  - intros m y Hm Hy.
    rewrite (date_bound_read_as _ _ _ Hm), (date_bound_read_as _ _ _ Hy). cbn [bind].
    now rewrite filter_twice.
Qed.

Lemma date_values_go_through_int_witness :
  exists by_fields,
    apply_filters three_tickets (PDict [("status", PStr "open")]) PNone = Return by_fields
    /\ (forall e,
          refused_by_int "month" [("month", PStr "1"); ("year", PNone)] e
          \/ (passes_int "month" [("month", PStr "1"); ("year", PNone)]
              /\ refused_by_int "year" [("month", PStr "1"); ("year", PNone)] e) ->
          apply_filters three_tickets (PDict [("status", PStr "open")])
            (PDict [("month", PStr "1"); ("year", PNone)]) = Raise e
          /\ (e = TypeError \/ e = ValueError \/ e = OverflowError))
    /\ (forall m y,
          read_as "month" [("month", PStr "1"); ("year", PNone)] m ->
          read_as "year" [("month", PStr "1"); ("year", PNone)] y ->
          apply_filters three_tickets (PDict [("status", PStr "open")])
            (PDict [("month", PStr "1"); ("year", PNone)])
          = Return (filter (fun t => date_ok month m t && date_ok year y t) by_fields)).
Proof.
  apply (date_values_go_through_int three_tickets (PDict [("status", PStr "open")])
           [("month", PStr "1"); ("year", PNone)]).
  right. exists [("status", PStr "open")]. reflexivity.
Defined.

(** The date filter on floats and on a refused year, run. *)
Lemma date_values_run :
  apply_filters three_tickets PNone (PDict [("month", PFloat (Finite 2 false "2.9"))])
    = Return [acme_closed]
  /\ apply_filters three_tickets PNone (PDict [("month", PFloat (Infinity false))])
     = Raise OverflowError
  /\ apply_filters three_tickets PNone (PDict [("year", PFloat NaN)]) = Raise ValueError
  /\ apply_filters three_tickets (PDict [("status", PStr "open")])
       (PDict [("month", PStr "1"); ("year", PNone)]) = Raise TypeError
  /\ apply_filters three_tickets (PDict [("status", PStr "open")])
       (PDict [("month", PBool true); ("year", PStr " 2024 ")])
     = Return [acme_open; beta_open].
Proof. repeat split; reflexivity. Qed.

(** C2 as stated fails: a month that is not an integer ends the filter
    engine, each tool and the endpoint in a ValueError instead of an
    invalid-argument result. *)
Lemma month_text_raises_ValueError :
  apply_filters three_tickets PNone (PDict [("month", PStr "abc")]) = Raise ValueError
  /\ count_tickets three_tickets PNone (PDict [("month", PStr "abc")]) = Raise ValueError
  /\ chat three_tickets
       [("count_tickets", PDict [("date_filter", PDict [("month", PStr "abc")])])]
     = Raise ValueError
  /\ ~ (exists r, chat three_tickets
          [("count_tickets", PDict [("date_filter", PDict [("month", PStr "abc")])])]
        = Return r).
Proof.
  repeat split; try reflexivity. intros (r & H). discriminate H.
Qed.

(** A month outside 1..12 is compared like any other number in
    [apply_filters]; the prototype's month tool answers it with its
    invalid-month message. *)
Lemma month_13_in_both_variants :
  (forall df, apply_filters df PNone (PDict [("month", PInt 13)])
              = Return (filter (fun t => (month (created_date t) =? 13)%Z) df))
  /\ count_tickets three_tickets PNone (PDict [("month", PInt 13)])
     = Return (RText "Total tickets: 0")
  /\ (forall df, Prototype.tickets_for_month df 13 = Prototype.INVALID_MONTH).
Proof. repeat split; reflexivity. Qed.

(* ================================================================== *)
(** ** The dispatch step of the endpoint *)

Lemma tool_map_get_unknown (name : string) :
  ~ In name tool_names -> tool_map_get name tool_map = Raise KeyError.
Proof.
  intro H. unfold tool_map, tool_map_get.
  destruct ("count_tickets" =? name)%string eqn:E1;
    [apply String.eqb_eq in E1; exfalso; apply H; subst; simpl; tauto|].
  destruct ("filter_tickets" =? name)%string eqn:E2;
    [apply String.eqb_eq in E2; exfalso; apply H; subst; simpl; tauto|].
  destruct ("group_by_tickets" =? name)%string eqn:E3;
    [apply String.eqb_eq in E3; exfalso; apply H; subst; simpl; tauto|].
  reflexivity.
Qed.

(** C1, as the code has it.  A tool name that is not a key of
    [tool_map] ends the endpoint in the KeyError of the lookup,
    whatever the arguments and the table; no reply is returned. *)
Theorem unknown_tool_raises_KeyError (df : DataFrame) (name : string) (args : pyval)
    (rest : list (string * pyval)) :
  ~ In name tool_names ->
  chat df ((name, args) :: rest) = Raise KeyError.
Proof.
  intro H. unfold chat. now rewrite (tool_map_get_unknown name H).
Qed.

Lemma unknown_tool_raises_KeyError_witness :
  chat three_tickets [("count", PDict [])] = Raise KeyError.
Proof.
  apply (unknown_tool_raises_KeyError three_tickets "count" (PDict []) []).
  simpl. intros [H|[H|[H|[]]]]; discriminate H.
Defined.

(** C1 as stated fails: the name delete_tickets is not in the tool
    map, and dispatching it returns no reply at all; the lookup raises
    KeyError. *)
Lemma unknown_tool_no_structured_error :
  ~ In "delete_tickets" tool_names
  /\ chat three_tickets [("delete_tickets", PDict [])] = Raise KeyError
  /\ ~ (exists r, chat three_tickets [("delete_tickets", PDict [])] = Return r).
Proof.
  split; [simpl; intros [H|[H|[H|[]]]]; discriminate H|].
  split; [reflexivity|]. intros (r & H). discriminate H.
Qed.

(** C9, as the code has it.  A call of [group_by_tickets] whose
    arguments have no [group_by] entry ends the endpoint in the
    TypeError of the call; no reply is returned. *)
Theorem missing_group_by_raises_TypeError (df : DataFrame) (kw : list (string * pyval))
    (rest : list (string * pyval)) :
  Py.lookup "group_by" kw = None ->
  chat df (("group_by_tickets", PDict kw) :: rest) = Raise TypeError.
Proof.
  intro H. unfold chat. cbn [tool_map tool_map_get String.eqb Ascii.eqb Bool.eqb bind unpack].
  unfold call_group_by_tickets.
  destruct (only_keywords ["group_by"; "filters"; "date_filter"] kw) as [[]|e] eqn:K.
  - cbn [bind]. unfold keyword at 1. rewrite H. reflexivity.
  - unfold only_keywords in K.
    destruct (forallb _ kw); inversion K. reflexivity.
Qed.

Lemma missing_group_by_raises_TypeError_witness :
  chat three_tickets [("group_by_tickets", PDict [("filters", PDict [("status", PStr "open")])])]
  = Raise TypeError.
Proof.
  apply (missing_group_by_raises_TypeError three_tickets
           [("filters", PDict [("status", PStr "open")])] []).
  reflexivity.
Defined.

(** C9 as stated fails: a group-by call without its key returns no
    reply, it raises TypeError. *)
Lemma missing_group_by_no_structured_error :
  chat three_tickets [("group_by_tickets", PDict [])] = Raise TypeError
  /\ ~ (exists r, chat three_tickets [("group_by_tickets", PDict [])] = Return r).
Proof.
  split; [reflexivity|]. intros (r & H). discriminate H.
Qed.

(* ================================================================== *)
(** ** More on the filter engine *)

Lemma filter_same_twice {A : Type} (p : A -> bool) (l : list A) :
  filter p (filter p l) = filter p l.
Proof.
  rewrite filter_twice. apply filter_ext. intro x. now destruct (p x).
Qed.

Lemma rows_match_perm (kv1 kv2 : list (string * pyval)) (t : Ticket) :
  Permutation kv1 kv2 -> rows_match kv1 t = rows_match kv2 t.
Proof.
  unfold rows_match.
  induction 1 as [|x l l' _ IH|x y l|l l' l'' _ IH1 _ IH2]; simpl.
  - reflexivity.
  - now rewrite IH.
  - rewrite !andb_assoc. f_equal. apply andb_comm.
  - now rewrite IH1.
Qed.

(** X1.  Filters and a date filter that are both absent or empty (any
    value Python counts as false) select the whole table:
    [apply_filters] returns its input, [count_tickets] reports the
    number of rows of the table. *)
Theorem empty_arguments_select_all (df : DataFrame) (filters date_filter : pyval) :
  Py.truthy filters = false -> Py.truthy date_filter = false ->
  apply_filters df filters date_filter = Return df
  /\ count_tickets df filters date_filter = Return (RText (total_msg (List.length df))).
Proof.
  intros Hf Hd. unfold count_tickets, apply_filters. rewrite Hf, Hd. split; reflexivity.
Qed.

Lemma empty_arguments_select_all_witness :
  apply_filters three_tickets (PDict []) (PStr "") = Return three_tickets
  /\ count_tickets three_tickets (PDict []) (PStr "") = Return (RText "Total tickets: 3").
Proof.
  apply (empty_arguments_select_all three_tickets (PDict []) (PStr "")); reflexivity.
Defined.

(** X2.  The order of the entries of the filter mapping does not
    matter: two mappings with the same entries in a different order
    give the same outcome. *)
Theorem filter_order_irrelevant (df : DataFrame) (kv1 kv2 : list (string * pyval))
    (date_filter : pyval) :
  Permutation kv1 kv2 ->
  apply_filters df (PDict kv1) date_filter = apply_filters df (PDict kv2) date_filter.
Proof.
  intro P. rewrite !apply_filters_dict. f_equal.
  apply filter_ext. intro t. now apply rows_match_perm.
Qed.

Lemma filter_order_irrelevant_witness :
  apply_filters three_tickets
    (PDict [("status", PStr "open"); ("company", PStr "beta")]) PNone
  = apply_filters three_tickets
    (PDict [("company", PStr "beta"); ("status", PStr "open")]) PNone.
Proof.
  apply (filter_order_irrelevant three_tickets
           [("status", PStr "open"); ("company", PStr "beta")]
           [("company", PStr "beta"); ("status", PStr "open")] PNone).
  apply perm_swap.
Defined.

(** X3.  Filtering is idempotent: running [apply_filters] again on its
    own result, with the same arguments, returns that result unchanged. *)
Theorem apply_filters_idempotent (df out : DataFrame) (filters date_filter : pyval) :
  apply_filters df filters date_filter = Return out ->
  apply_filters out filters date_filter = Return out.
Proof.
  intro H.
  destruct (apply_filters_cases df filters date_filter) as [(e & E & _)|(p & E & S)];
    rewrite E in H; inversion H.
  rewrite apply_filters_selection, S. simpl. now rewrite filter_same_twice.
Qed.

Lemma apply_filters_idempotent_witness :
  apply_filters [acme_open; beta_open] (PDict [("status", PStr "open")]) (PDict [("month", PInt 1)])
  = Return [acme_open; beta_open].
Proof.
  apply (apply_filters_idempotent three_tickets [acme_open; beta_open]
           (PDict [("status", PStr "open")]) (PDict [("month", PInt 1)])).
  reflexivity.
Defined.

(** X4.  Rows are judged one by one: on two tables put end to end the
    engine returns the rows it returns on the first followed by the
    rows it returns on the second. *)
Theorem apply_filters_app (df1 df2 out1 out2 : DataFrame) (filters date_filter : pyval) :
  apply_filters df1 filters date_filter = Return out1 ->
  apply_filters df2 filters date_filter = Return out2 ->
  apply_filters (df1 ++ df2)%list filters date_filter = Return (out1 ++ out2)%list.
Proof.
  intros H1 H2. rewrite apply_filters_selection in *.
  destruct (selection filters date_filter) as [p|e]; simpl in *; [|discriminate H1].
  inversion H1. inversion H2. now rewrite filter_app.
Qed.

Lemma apply_filters_app_witness :
  apply_filters ([acme_open; acme_closed] ++ [beta_open])%list
    (PDict [("priority", PStr "HIGH")]) PNone
  = Return ([acme_open] ++ [beta_open])%list.
Proof.
  apply (apply_filters_app [acme_open; acme_closed] [beta_open] [acme_open] [beta_open]
           (PDict [("priority", PStr "HIGH")]) PNone); reflexivity.
Defined.

(** X5.  More filter entries can only narrow the result: the rows
    selected with further entries added to the mapping are the rows
    that those entries alone select among the rows selected without
    them, hence a subsequence of these; an exception is raised with
    the further entries exactly when it is raised without them. *)
Theorem more_filters_narrow (df : DataFrame) (kv more : list (string * pyval))
    (date_filter : pyval) :
  (exists e, apply_filters df (PDict kv) date_filter = Raise e
             /\ apply_filters df (PDict (kv ++ more)%list) date_filter = Raise e)
  \/
  (exists out out', apply_filters df (PDict kv) date_filter = Return out
                    /\ apply_filters df (PDict (kv ++ more)%list) date_filter = Return out'
                    /\ apply_filters out (PDict more) PNone = Return out'
                    /\ subseq out' out).
Proof.
  rewrite !apply_filters_dict, !apply_filters_selection.
  destruct (selection PNone date_filter) as [p|e]; simpl; [right | left; eauto].
  exists (filter p (filter (rows_match kv) df)),
         (filter p (filter (rows_match (kv ++ more)%list) df)).
  split; [reflexivity|]. split; [reflexivity|].
  assert (E : filter p (filter (rows_match (kv ++ more)%list) df)
              = filter (rows_match more) (filter p (filter (rows_match kv) df))).
  { rewrite (filter_swap p (rows_match more)). f_equal.
    rewrite filter_twice. apply filter_ext. intro t. apply rows_match_app. }
  rewrite E. split; [|apply subseq_filter].
  rewrite apply_filters_dict. unfold apply_filters. simpl. reflexivity.
Qed.

(* ================================================================== *)
(** ** The date filter *)

(** X6.  Of the date filter only the entries [month] and [year] are
    read: two date mappings that agree on these two keys give the same
    outcome, whatever else they hold (an empty mapping included). *)
Theorem date_filter_reads_month_and_year (df : DataFrame) (filters : pyval)
    (kv1 kv2 : list (string * pyval)) :
  Py.lookup "month" kv1 = Py.lookup "month" kv2 ->
  Py.lookup "year" kv1 = Py.lookup "year" kv2 ->
  apply_filters df filters (PDict kv1) = apply_filters df filters (PDict kv2).
Proof.
  intros Hm Hy. rewrite !apply_filters_date_dict, !date_bound_dict, Hm, Hy. reflexivity.
Qed.

Lemma date_filter_reads_month_and_year_witness :
  apply_filters three_tickets PNone (PDict [("day", PStr "x"); ("month", PInt 2)])
  = apply_filters three_tickets PNone (PDict [("month", PInt 2)]).
Proof.
  apply (date_filter_reads_month_and_year three_tickets PNone
           [("day", PStr "x"); ("month", PInt 2)] [("month", PInt 2)]); reflexivity.
Defined.

(** X7.  A date mapping with a month and a year that [int] accepts
    keeps, among the rows the filters select, exactly the rows created
    in that month of that year, in table order; the two values count
    as the integers [int] makes of them. *)
Theorem month_and_year_conjunction (df by_fields : DataFrame) (filters : pyval)
    (kv : list (string * pyval)) (vm vy : pyval) (m y : Z) :
  apply_filters df filters PNone = Return by_fields ->
  Py.lookup "month" kv = Some vm -> Py.int vm = Return m ->
  Py.lookup "year" kv = Some vy -> Py.int vy = Return y ->
  apply_filters df filters (PDict kv)
  = Return (filter (fun t => (month (created_date t) =? m)%Z
                             && (year (created_date t) =? y)%Z) by_fields).
Proof.
  intros H Lm Im Ly Iy.
  rewrite apply_filters_date_dict, H, !date_bound_dict, Lm, Ly, Im, Iy. simpl.
  now rewrite filter_twice.
Qed.

Lemma month_and_year_conjunction_witness :
  apply_filters three_tickets (PDict [("company", PStr "acme")])
    (PDict [("year", PStr "2024"); ("month", PStr " 2 ")])
  = Return [acme_closed].
Proof.
  apply (month_and_year_conjunction three_tickets [acme_open; acme_closed]
           (PDict [("company", PStr "acme")])
           [("year", PStr "2024"); ("month", PStr " 2 ")]
           (PStr " 2 ") (PStr "2024") 2%Z 2024%Z); reflexivity.
Defined.

(** X8.  A [filters] argument that is not a mapping and that Python
    counts as true (a non-empty text or list, a non-zero number, True)
    ends [apply_filters] in an AttributeError, whatever the table and
    the date filter. *)
Theorem filters_not_a_mapping (df : DataFrame) (filters date_filter : pyval) :
  Py.truthy filters = true -> (forall kv, filters <> PDict kv) ->
  apply_filters df filters date_filter = Raise AttributeError.
Proof.
  intros Ht Hn. unfold apply_filters. rewrite Ht.
  destruct filters as [| | |[| |]| | |kv]; try reflexivity. now contradiction (Hn kv).
Qed.

Lemma filters_not_a_mapping_witness :
  apply_filters three_tickets (PStr "status=open") (PDict [("month", PStr "abc")])
  = Raise AttributeError.
Proof.
  apply (filters_not_a_mapping three_tickets (PStr "status=open")
           (PDict [("month", PStr "abc")])).
  - reflexivity.
  - intros kv H. discriminate H.
Defined.

(** X9.  A group key that is not text never reaches the filter engine:
    None, a bool or a number is answered with the invalid-column
    message, a list or a dict ends the tool in the TypeError of the
    set-membership test. *)
Theorem group_key_not_text (df : DataFrame) (group_by filters date_filter : pyval) :
  (forall s, group_by <> PStr s) ->
  group_by_tickets df group_by filters date_filter
  = if Py.hashable group_by then Return (RText INVALID_GROUP_BY) else Raise TypeError.
Proof.
  intro H. unfold group_by_tickets.
  destruct group_by as [| | | |s| |]; try reflexivity. now contradiction (H s).
Qed.

Lemma group_key_not_text_witness :
  group_by_tickets three_tickets (PList [PStr "company"]) PNone PNone = Raise TypeError
  /\ group_by_tickets three_tickets PNone PNone PNone = Return (RText INVALID_GROUP_BY).
Proof.
  split.
  - apply (group_key_not_text three_tickets (PList [PStr "company"]) PNone PNone).
    intros s H. discriminate H.
  - apply (group_key_not_text three_tickets PNone PNone PNone).
    intros s H. discriminate H.
Defined.

(* ================================================================== *)
(** ** Which exceptions the endpoint can end in *)

Lemma no_KeyError_bind {A B : Type} (c : outcome A) (k : A -> outcome B) :
  no_KeyError c -> (forall a, no_KeyError (k a)) -> no_KeyError (bind c k).
Proof.
  unfold no_KeyError. intros Hc Hk. destruct c as [a|e]; simpl; [apply Hk|].
  intro E. apply Hc. inversion E. reflexivity.
Qed.

Lemma no_KeyError_Return {A : Type} (a : A) : no_KeyError (Return a).
Proof. discriminate. Qed.

Lemma date_bound_no_KeyError (name : string) (d : pyval) : no_KeyError (date_bound name d).
Proof.
  destruct d; try discriminate.
  - unfold date_bound, py_in, getitem. cbn [bind]. destruct (Py.contains name s); discriminate.
  - unfold date_bound, py_in, getitem. cbn [bind].
    destruct (existsb _ items0); discriminate.
  - rewrite date_bound_dict. destruct (Py.lookup name kv) as [v|]; [|discriminate].
    destruct v as [| | |[| |]|s| |]; try discriminate; simpl.
    destruct (Py.int_of_string s); discriminate.
Qed.

Lemma apply_filters_no_KeyError (df : DataFrame) (f d : pyval) :
  no_KeyError (apply_filters df f d).
Proof.
  rewrite apply_filters_selection. apply no_KeyError_bind; [|intro; discriminate].
  unfold selection. apply no_KeyError_bind.
  - unfold chosen_entries. destruct (Py.truthy f); [|discriminate].
    destruct f; discriminate.
  - intro entries. destruct (Py.truthy d); [|discriminate].
    apply no_KeyError_bind; [apply date_bound_no_KeyError|]. intro m.
    apply no_KeyError_bind; [apply date_bound_no_KeyError|]. intro y. discriminate.
Qed.

Lemma group_by_tickets_no_KeyError (df : DataFrame) (g f d : pyval) :
  no_KeyError (group_by_tickets df g f d).
Proof.
  unfold group_by_tickets.
  destruct g; try discriminate. unfold in_set. cbn [bind].
  destruct (mem s ALLOWED_GROUP_BY) eqn:Hm; cbn [negb]; [|discriminate].
  apply no_KeyError_bind; [apply apply_filters_no_KeyError|].
  intros [|t out]; [discriminate|].
  destruct (s =? "month")%string eqn:E; [discriminate|].
  destruct (allowed_group_column s Hm E) as [field ->]. discriminate.
Qed.

Lemma keyword_no_KeyError (k : string) (dflt : option pyval) (kw : list (string * pyval)) :
  no_KeyError (keyword k dflt kw).
Proof. unfold keyword. destruct (Py.lookup k kw); [|destruct dflt]; discriminate. Qed.

Lemma only_keywords_no_KeyError (params : list string) (kw : list (string * pyval)) :
  no_KeyError (only_keywords params kw).
Proof. unfold only_keywords. destruct (forallb _ kw); discriminate. Qed.

Lemma known_tool_no_KeyError (df : DataFrame) (tool : string) (args : pyval)
    (rest : list (string * pyval)) :
  In tool tool_names -> no_KeyError (chat df ((tool, args) :: rest)).
Proof.
  intro H. simpl in H.
  destruct H as [<-|[<-|[<-|[]]]]; unfold chat; cbn [tool_map tool_map_get String.eqb Ascii.eqb Bool.eqb bind];
    (apply no_KeyError_bind; [destruct args; discriminate|]); intro kw;
    (apply no_KeyError_bind; [|intro; discriminate]).
  - unfold call_count_tickets.
    apply no_KeyError_bind; [apply only_keywords_no_KeyError|]. intros _.
    apply no_KeyError_bind; [apply keyword_no_KeyError|]. intro f.
    apply no_KeyError_bind; [apply keyword_no_KeyError|]. intro d.
    unfold count_tickets.
    apply no_KeyError_bind; [apply apply_filters_no_KeyError|]. intro. discriminate.
  - unfold call_filter_tickets.
    apply no_KeyError_bind; [apply only_keywords_no_KeyError|]. intros _.
    apply no_KeyError_bind; [apply keyword_no_KeyError|]. intro f.
    apply no_KeyError_bind; [apply keyword_no_KeyError|]. intro d.
    unfold filter_tickets.
    apply no_KeyError_bind; [apply apply_filters_no_KeyError|]. intros [|t out]; discriminate.
  - unfold call_group_by_tickets.
    apply no_KeyError_bind; [apply only_keywords_no_KeyError|]. intros _.
    apply no_KeyError_bind; [apply keyword_no_KeyError|]. intro g.
    apply no_KeyError_bind; [apply keyword_no_KeyError|]. intro f.
    apply no_KeyError_bind; [apply keyword_no_KeyError|]. intro d.
    apply group_by_tickets_no_KeyError.
Qed.

(** X10.  The endpoint ends in a KeyError exactly when the tool name is
    not one of the three keys of [tool_map]: for a known tool no
    argument and no table makes the filter engine, the grouping or the
    call itself raise one. *)
Theorem KeyError_iff_unknown_tool (df : DataFrame) (tool : string) (args : pyval)
    (rest : list (string * pyval)) :
  chat df ((tool, args) :: rest) = Raise KeyError <-> ~ In tool tool_names.
Proof.
  split.
  - intros E H. exact (known_tool_no_KeyError df tool args rest H E).
  - intro H. unfold chat. now rewrite (tool_map_get_unknown tool H).
Qed.

Lemma only_keywords_unexpected (params : list string) (kw : list (string * pyval))
    (k : string) (v : pyval) :
  In (k, v) kw -> ~ In k params -> only_keywords params kw = Raise TypeError.
Proof.
  intros Hin Hk. unfold only_keywords.
  destruct (forallb (fun p => mem (fst p) params) kw) eqn:F; [|reflexivity].
  rewrite forallb_forall in F. specialize (F _ Hin). simpl in F.
  apply mem_In in F. contradiction.
Qed.

(** X11.  Every tool binds exactly the parameters its entry in [tools]
    declares: a call whose arguments hold a key outside the declared
    properties of the tool, or whose arguments are not a mapping at
    all, ends the endpoint in a TypeError before the tool runs. *)
Theorem undeclared_argument_raises_TypeError (df : DataFrame) (t : tool_schema)
    (args : pyval) (rest : list (string * pyval)) :
  In t tools ->
  (forall kw, args <> PDict kw)
  \/ (exists kw k v, args = PDict kw /\ In (k, v) kw /\ ~ In k (properties t)) ->
  chat df ((name t, args) :: rest) = Raise TypeError.
Proof.
  intros Ht Hargs. simpl in Ht.
  destruct Ht as [<-|[<-|[<-|[]]]]; unfold chat;
    cbn [name tool_map tool_map_get String.eqb Ascii.eqb Bool.eqb bind];
    (destruct Hargs as [Hn|(kw & k & v & -> & Hin & Hk)];
     [destruct args; try reflexivity; now contradiction (Hn kv)|]);
    cbn [unpack bind properties] in *.
  - unfold call_count_tickets. now rewrite (only_keywords_unexpected _ kw k v Hin Hk).
  - unfold call_filter_tickets. now rewrite (only_keywords_unexpected _ kw k v Hin Hk).
  - unfold call_group_by_tickets. now rewrite (only_keywords_unexpected _ kw k v Hin Hk).
Qed.

Lemma undeclared_argument_raises_TypeError_witness :
  chat three_tickets [("count_tickets", PDict [("group_by", PStr "status")])] = Raise TypeError.
Proof.
  apply (undeclared_argument_raises_TypeError three_tickets
           (mkTool "count_tickets" ["filters"; "date_filter"] [])
           (PDict [("group_by", PStr "status")]) []).
  - simpl. tauto.
  - right. exists [("group_by", PStr "status")], "group_by", (PStr "status").
    split; [reflexivity|]. split; [simpl; tauto|].
    simpl. intros [H|[H|[]]]; discriminate H.
Defined.

(* ================================================================== *)
(** ** What the table of group sizes holds *)

Section SizeTableFacts.
Variable K : Type.
Variable cmp : K -> K -> comparison.
Hypothesis order : total_order cmp.

Lemma cmp_refl (a : K) : cmp a a = Eq.
Proof. now apply (cmp_eq order). Qed.

Lemma cmp_Gt_Lt (a b : K) : cmp a b = Gt -> cmp b a = Lt.
Proof. intro H. rewrite (cmp_opp order), H. reflexivity. Qed.

Lemma bump_keys (P : K -> Prop) (k : K) (sizes : list (K * nat)) :
  P k -> Forall (fun p => P (fst p)) sizes -> Forall (fun p => P (fst p)) (bump cmp k sizes).
Proof.
  intros Hk. induction 1 as [|[k' n] rest Hp Hrest IH]; simpl.
  - constructor; [exact Hk | constructor].
  - destruct (cmp k k').
    + constructor; assumption.
    + constructor; [exact Hk|]. constructor; assumption.
    + constructor; assumption.
Qed.

Lemma bump_ascending (k : K) (sizes : list (K * nat)) :
  ascending cmp sizes -> ascending cmp (bump cmp k sizes).
Proof.
  induction 1 as [|k' n rest Hlt Hasc IH]; simpl.
  - constructor; constructor.
  - destruct (cmp k k') eqn:E.
    + now constructor.
    + constructor; [|now constructor].
      constructor; [exact E|].
      eapply Forall_impl; [|exact Hlt]. intros p Hp. simpl.
      exact (cmp_trans order _ _ _ E Hp).
    + constructor; [|exact IH].
      apply (bump_keys (fun x => cmp k' x = Lt)); [now apply cmp_Gt_Lt | exact Hlt].
Qed.

Lemma size_of_below (k : K) (sizes : list (K * nat)) :
  Forall (fun p => cmp k (fst p) = Lt) sizes -> size_of cmp k sizes = 0.
Proof.
  induction 1 as [|[k' n] rest Hp _ IH]; simpl; [reflexivity|].
  simpl in Hp. now rewrite Hp.
Qed.

Lemma size_of_bump (q k : K) (sizes : list (K * nat)) :
  ascending cmp sizes ->
  size_of cmp q (bump cmp k sizes)
  = (match cmp q k with Eq => 1 | _ => 0 end) + size_of cmp q sizes.
Proof.
  induction 1 as [|k' n rest Hlt Hasc IH]; simpl.
  - destruct (cmp q k); reflexivity.
  - destruct (cmp k k') eqn:E; simpl.
    + apply (cmp_eq order) in E. subst k'.
      destruct (cmp q k); lia.
    + destruct (cmp q k) eqn:Q; try reflexivity.
      apply (cmp_eq order) in Q. subst q. rewrite E.
      rewrite size_of_below; [reflexivity|].
      eapply Forall_impl; [|exact Hlt]. intros p Hp. simpl.
      exact (cmp_trans order _ _ _ E Hp).
    + destruct (cmp q k') eqn:Q'; try exact IH.
      apply (cmp_eq order) in Q'. subst q.
      rewrite (cmp_Gt_Lt _ _ E). reflexivity.
Qed.

Lemma bump_positive (k : K) (sizes : list (K * nat)) :
  Forall (fun p => 0 < snd p) sizes -> Forall (fun p => 0 < snd p) (bump cmp k sizes).
Proof.
  induction 1 as [|[k' n] rest Hp Hrest IH]; simpl.
  - constructor; [simpl; lia | constructor].
  - destruct (cmp k k').
    + constructor; [simpl; lia | assumption].
    + constructor; [simpl; lia|]. constructor; assumption.
    + constructor; assumption.
Qed.

Lemma group_sizes_table (keys : list K) :
  ascending cmp (group_sizes cmp keys)
  /\ (forall q, size_of cmp q (group_sizes cmp keys) = occurrences cmp q keys)
  /\ Forall (fun p => 0 < snd p) (group_sizes cmp keys).
Proof.
  unfold group_sizes.
  assert (G : forall acc,
             ascending cmp acc -> Forall (fun p => 0 < snd p) acc ->
             ascending cmp (fold_left (fun acc k => bump cmp k acc) keys acc)
             /\ (forall q, size_of cmp q (fold_left (fun acc k => bump cmp k acc) keys acc)
                           = occurrences cmp q keys + size_of cmp q acc)
             /\ Forall (fun p => 0 < snd p) (fold_left (fun acc k => bump cmp k acc) keys acc)).
  { induction keys as [|k keys IH]; intros acc Ha Hp; simpl.
    - repeat split; assumption.
    - destruct (IH (bump cmp k acc) (bump_ascending k acc Ha) (bump_positive k acc Hp))
        as (A & S & P).
      split; [exact A|]. split; [|exact P].
      intro q. rewrite S, (size_of_bump q k acc Ha). unfold occurrences. simpl.
      destruct (cmp q k); simpl; lia. }
  destruct (G [] (ascending_nil K cmp) (Forall_nil _)) as (A & S & P).
  split; [exact A|]. split; [|exact P].
  intro q. rewrite S. simpl. lia.
Qed.

End SizeTableFacts.

Lemma ascii_compare_trans (a b c : ascii) :
  Ascii.compare a b = Lt -> Ascii.compare b c = Lt -> Ascii.compare a c = Lt.
Proof.
  unfold Ascii.compare. rewrite !N.compare_lt_iff. apply N.lt_trans.
Qed.

Lemma ascii_compare_refl (a : ascii) : Ascii.compare a a = Eq.
Proof. unfold Ascii.compare. apply N.compare_refl. Qed.

Lemma string_compare_refl (s : string) : String.compare s s = Eq.
Proof. induction s as [|c s IH]; simpl; [reflexivity|]. now rewrite ascii_compare_refl. Qed.

Lemma string_compare_trans (a : string) :
  forall b c, String.compare a b = Lt -> String.compare b c = Lt -> String.compare a c = Lt.
Proof.
  induction a as [|x a IH]; intros [|y b] [|z c]; simpl; try discriminate; try reflexivity.
  destruct (Ascii.compare x y) eqn:XY; destruct (Ascii.compare y z) eqn:YZ;
    try discriminate; intros H1 H2.
  - apply Ascii.compare_eq_iff in XY. apply Ascii.compare_eq_iff in YZ. subst.
    rewrite ascii_compare_refl. now apply (IH b c).
  - apply Ascii.compare_eq_iff in XY. subst. now rewrite YZ.
  - apply Ascii.compare_eq_iff in YZ. subst. now rewrite XY.
  - now rewrite (ascii_compare_trans x y z XY YZ).
Qed.

Lemma string_order : total_order String.compare.
Proof.
  constructor.
  - intros a b. split; [apply String.compare_eq_iff | intros ->; apply string_compare_refl].
  - apply String.compare_antisym.
  - intros a b c. apply string_compare_trans.
Qed.

Lemma Z_order : total_order Z.compare.
Proof.
  constructor.
  - intros a b. apply Z.compare_eq_iff.
  - intros a b. apply Z.compare_antisym.
  - intros a b c. rewrite !Z.compare_lt_iff. apply Z.lt_trans.
Qed.

Lemma occurrences_text (field : Ticket -> cell) (k : string) (rows : list Ticket) :
  occurrences String.compare k (dropna (map field rows))
  = List.length (filter (fun t => cell_is (field t) k) rows).
Proof.
  unfold occurrences. induction rows as [|t rows IH]; simpl; [reflexivity|].
  destruct (field t) as [s|]; simpl; [|exact IH].
  destruct (s =? k)%string eqn:E.
  - apply String.eqb_eq in E. rewrite E, string_compare_refl. simpl. now rewrite IH.
  - destruct (String.compare k s) eqn:C; try exact IH.
    apply String.compare_eq_iff in C. subst k. now rewrite String.eqb_refl in E.
Qed.

Lemma occurrences_month (k : Z) (rows : list Ticket) :
  occurrences Z.compare k (map (fun t => month (created_date t)) rows)
  = List.length (filter (fun t => (month (created_date t) =? k)%Z) rows).
Proof.
  unfold occurrences. induction rows as [|t rows IH]; simpl; [reflexivity|].
  destruct (month (created_date t) =? k)%Z eqn:E.
  - apply Z.eqb_eq in E. rewrite E, Z.compare_refl. simpl. now rewrite IH.
  - destruct (Z.compare k (month (created_date t))) eqn:C; try exact IH.
    apply Z.compare_eq_iff in C. rewrite C, Z.eqb_refl in E. discriminate E.
Qed.

Lemma text_column_allowed (col : string) (field : Ticket -> cell) :
  text_column col = Some field ->
  mem col ALLOWED_GROUP_BY = true /\ (col =? "month")%string = false.
Proof.
  unfold text_column.
  destruct (col =? "company")%string eqn:E1;
    [apply String.eqb_eq in E1; subst; split; reflexivity|].
  destruct (col =? "status")%string eqn:E2;
    [apply String.eqb_eq in E2; subst; split; reflexivity|].
  destruct (col =? "priority")%string eqn:E3;
    [apply String.eqb_eq in E3; subst; split; reflexivity|].
  destruct (col =? "category")%string eqn:E4;
    [apply String.eqb_eq in E4; subst; split; reflexivity|].
  destruct (col =? "assigned_to")%string eqn:E5;
    [apply String.eqb_eq in E5; subst; split; reflexivity|].
  discriminate.
Qed.

(** X12.  Grouping by a text column returns one entry per distinct
    value of the column among the selected rows: the keys come in
    strictly ascending order, the size recorded for a value is the
    number of selected rows that carry it (0, that is no entry, for a
    value no row carries), and no entry has size 0.  Rows whose cell
    in the column is missing carry no value and are in no entry. *)
Theorem group_by_column_table (df out : DataFrame) (col : string) (field : Ticket -> cell)
    (filters date_filter : pyval) :
  text_column col = Some field ->
  apply_filters df filters date_filter = Return out -> out <> [] ->
  exists sizes,
    group_by_tickets df (PStr col) filters date_filter = Return (RSizes (keyed PStr sizes))
    /\ ascending String.compare sizes
    /\ (forall k, size_of String.compare k sizes
                  = List.length (filter (fun t => cell_is (field t) k) out))
    /\ Forall (fun p => 0 < snd p) sizes.
Proof.
  intros Hc Ha Hne.
  destruct (text_column_allowed col field Hc) as (Hm & Hmonth).
  destruct (group_sizes_table _ _ string_order (dropna (map field out))) as (A & S & P).
  exists (group_sizes String.compare (dropna (map field out))).
  split; [|split; [exact A|split; [|exact P]]].
  - unfold group_by_tickets, in_set. rewrite Hm. cbn [bind negb]. rewrite Ha. cbn [bind].
    destruct out as [|t out]; [now contradiction Hne|]. now rewrite Hmonth, Hc.
  - intro k. rewrite S. apply occurrences_text.
Qed.

Lemma group_by_column_table_witness :
  exists sizes,
    group_by_tickets three_tickets (PStr "priority") PNone PNone
      = Return (RSizes (keyed PStr sizes))
    /\ ascending String.compare sizes
    /\ (forall k, size_of String.compare k sizes
                  = List.length (filter (fun t => cell_is (priority t) k) three_tickets))
    /\ Forall (fun p => 0 < snd p) sizes.
Proof.
  apply (group_by_column_table three_tickets three_tickets "priority" priority PNone PNone).
  - reflexivity.
  - reflexivity.
  - discriminate.
Defined.

(** X13.  Grouping by [month] returns one entry per month in which a
    selected row was created: the months come in strictly ascending
    order, the size recorded for a month is the number of selected rows
    created in it, and no entry has size 0. *)
Theorem group_by_month_table (df out : DataFrame) (filters date_filter : pyval) :
  apply_filters df filters date_filter = Return out -> out <> [] ->
  exists sizes,
    group_by_tickets df (PStr "month") filters date_filter = Return (RSizes (keyed PInt sizes))
    /\ ascending Z.compare sizes
    /\ (forall k, size_of Z.compare k sizes
                  = List.length (filter (fun t => (month (created_date t) =? k)%Z) out))
    /\ Forall (fun p => 0 < snd p) sizes.
Proof.
  intros Ha Hne.
  destruct (group_sizes_table _ _ Z_order (map (fun t => month (created_date t)) out))
    as (A & S & P).
  exists (group_sizes Z.compare (map (fun t => month (created_date t)) out)).
  split; [|split; [exact A|split; [|exact P]]].
  - unfold group_by_tickets, in_set. cbn. rewrite Ha. cbn [bind].
    destruct out as [|t out]; [now contradiction Hne | reflexivity].
  - intro k. rewrite S. apply occurrences_month.
Qed.

Lemma group_by_month_table_witness :
  exists sizes,
    group_by_tickets three_tickets (PStr "month") (PDict [("status", PStr "open")]) PNone
      = Return (RSizes (keyed PInt sizes))
    /\ ascending Z.compare sizes
    /\ (forall k, size_of Z.compare k sizes
                  = List.length (filter (fun t => (month (created_date t) =? k)%Z)
                                        [acme_open; beta_open]))
    /\ Forall (fun p => 0 < snd p) sizes.
Proof.
  apply (group_by_month_table three_tickets [acme_open; beta_open]
           (PDict [("status", PStr "open")]) PNone).
  - reflexivity.
  - discriminate.
Defined.

(* ================================================================== *)
(** ** The prototype's tools against the generic ones *)

Lemma filter_length_le {A : Type} (p q : A -> bool) (l : list A) :
  (forall x, In x l -> p x = true -> q x = true) ->
  List.length (filter p l) <= List.length (filter q l).
Proof.
  induction l as [|x l IH]; intro H; simpl; [lia|].
  assert (IH' : List.length (filter p l) <= List.length (filter q l))
    by (apply IH; intros y Hy; apply H; now right).
  destruct (p x) eqn:P.
  - rewrite (H x (or_introl eq_refl) P). simpl. lia.
  - destruct (q x); simpl; lia.
Qed.

(** X14.  The prototype's open-ticket count compares the status with
    the exact text open, the generic count compares without regard to
    case: the prototype's number is never larger than what
    [count_tickets] reports for status open, and the two are equal on
    a table whose statuses that read open in lower case are written
    open. *)
Theorem count_open_tickets_exact_case (df : DataFrame) :
  exists n_exact n_any_case,
    Test2.count_open_tickets df = "Total open tickets: " ++ Py.str_of_nat n_exact
    /\ count_tickets df (PDict [("status", PStr "open")]) PNone
       = Return (RText (total_msg n_any_case))
    /\ n_exact <= n_any_case
    /\ ((forall t, In t df -> option_map Py.lower (status t) = Some "open" ->
                   status t = Some "open")
        -> n_exact = n_any_case).
Proof.
  exists (List.length (filter (fun t => cell_is (status t) "open") df)),
         (List.length (filter (fun t => lower_is (status t) "open") df)).
  split; [reflexivity|]. split; [reflexivity|]. split.
  - apply filter_length_le. intros t _ E. unfold cell_is, lower_is in *.
    destruct (status t) as [s|]; [|discriminate E].
    apply String.eqb_eq in E. now rewrite E.
  - intro H. f_equal. apply filter_ext_in. intros t Ht. specialize (H t Ht).
    unfold cell_is, lower_is. destruct (status t) as [s|]; [|reflexivity]. simpl in H.
    destruct (Py.lower s =? "open")%string eqn:E.
    + apply String.eqb_eq in E. rewrite E in H. specialize (H eq_refl).
      inversion H. reflexivity.
    + destruct (s =? "open")%string eqn:E'; [|reflexivity].
      apply String.eqb_eq in E'. rewrite E' in E. discriminate E.
Qed.

(** X15.  The high-priority tool has two answers.  When no row of the
    table has the priority high (in that exact case; a missing
    priority is not high) it returns its no-tickets message.  When
    some row has, it returns a list, never empty, which is the
    four-column projection of the high-priority rows of the table in
    table order: it holds the projection of each such row and of
    nothing else. *)
Theorem high_priority_records (df : DataFrame) :
  ((forall t, In t df -> priority t <> Some "high")
   /\ Test2.get_high_priority_tickets df = Test2.Plain (RText Test2.NO_HIGH))
  \/
  ((exists t, In t df /\ priority t = Some "high")
   /\ exists rows,
        Test2.get_high_priority_tickets df = Test2.HighRecords rows
        /\ rows = map Test2.project (filter (fun t => cell_is (priority t) "high") df)
        /\ rows <> []
        /\ List.length rows <= List.length df
        /\ forall r, In r rows
                     <-> exists t, In t df /\ priority t = Some "high" /\ r = Test2.project t).
Proof.
  assert (C : forall t, cell_is (priority t) "high" = true <-> priority t = Some "high").
  { intro t. unfold cell_is. destruct (priority t) as [s|].
    - rewrite String.eqb_eq. split; [intros ->; reflexivity | intro E; now inversion E].
    - split; discriminate. }
  unfold Test2.get_high_priority_tickets.
  destruct (filter (fun t => cell_is (priority t) "high") df) as [|h high] eqn:F.
  - left. split; [|reflexivity]. intros t Ht E.
    assert (I : In t (filter (fun t => cell_is (priority t) "high") df))
      by (apply filter_In; split; [exact Ht | now apply C]).
    rewrite F in I. exact I.
  - right.
    assert (I : In h (filter (fun t => cell_is (priority t) "high") df))
      by (rewrite F; now left).
    apply filter_In in I. destruct I as (Ih & E). apply C in E.
    split; [exists h; split; assumption|].
    exists (map Test2.project (h :: high)).
    split; [reflexivity|]. split; [reflexivity|]. split; [discriminate|].
    rewrite <- F. split.
    + rewrite length_map. apply subseq_length, subseq_filter.
    + intro r. rewrite in_map_iff. split.
      * intros (t & <- & It). apply filter_In in It. destruct It as (It & Et).
        apply C in Et. eauto.
      * intros (t & It & Et & ->). exists t. split; [reflexivity|].
        apply filter_In. split; [exact It | now apply C].
Qed.

(** X16.  The prototype's this-month tool counts what the generic
    [count_tickets] counts under the date filter with the month and the
    year of the clock. *)
Theorem tickets_this_month_is_count (df : DataFrame) (now : Timestamp) :
  exists n,
    Test2.tickets_this_month df now = "Tickets created this month: " ++ Py.str_of_nat n
    /\ count_tickets df PNone (PDict [("month", PInt (month now)); ("year", PInt (year now))])
       = Return (RText (total_msg n)).
Proof.
  eexists. split; [reflexivity|].
  unfold count_tickets. rewrite apply_filters_date_dict, !date_bound_dict.
  cbn. now rewrite filter_twice.
Qed.

(** X17.  The prototype's month tool answers with its invalid-month
    message exactly for a month below 1 or above 12; for a month from
    1 to 12 it reports the number that the generic [count_tickets]
    reports under the date filter with that month. *)
Theorem tickets_for_month_range (df : DataFrame) (m : Z) :
  (Prototype.tickets_for_month df m = Prototype.INVALID_MONTH <-> (m < 1 \/ m > 12)%Z)
  /\ ((1 <= m <= 12)%Z ->
      exists n,
        Prototype.tickets_for_month df m
        = "Tickets created in month " ++ Py.str_of_Z m ++ ": " ++ Py.str_of_nat n
        /\ count_tickets df PNone (PDict [("month", PInt m)]) = Return (RText (total_msg n))).
Proof.
  unfold Prototype.tickets_for_month.
  destruct ((m <? 1) || (m >? 12))%Z eqn:R.
  - assert (O : (m < 1 \/ m > 12)%Z).
    { apply orb_true_iff in R. destruct R as [R|R]; [left | right]; lia. }
    split; [tauto|]. intro H. lia.
  - assert (I : (1 <= m <= 12)%Z).
    { apply orb_false_iff in R. destruct R as [R1 R2]. lia. }
    split.
    + split; [simpl; discriminate | intro H; lia].
    + intros _. eexists. split; reflexivity.
Qed.

Lemma tickets_for_month_range_witness :
  exists n,
    Prototype.tickets_for_month three_tickets 1
    = "Tickets created in month " ++ Py.str_of_Z 1 ++ ": " ++ Py.str_of_nat n
    /\ count_tickets three_tickets PNone (PDict [("month", PInt 1)])
       = Return (RText (total_msg n)).
Proof.
  apply (tickets_for_month_range three_tickets 1). lia.
Defined.

Lemma allowed_column_spec (col : string) :
  Test2.allowed_column col Test2.ALLOWED_FILTERS
  = if mem col ALLOWED_FILTERS then Some col else None.
Proof.
  unfold Test2.ALLOWED_FILTERS, mem, ALLOWED_FILTERS. cbn [Test2.allowed_column existsb].
  rewrite !(String.eqb_sym col).
  destruct ("company" =? col)%string eqn:E1; [apply String.eqb_eq in E1; now subst|].
  destruct ("status" =? col)%string eqn:E2; [apply String.eqb_eq in E2; now subst|].
  destruct ("priority" =? col)%string eqn:E3; [apply String.eqb_eq in E3; now subst|].
  destruct ("category" =? col)%string eqn:E4; [apply String.eqb_eq in E4; now subst|].
  destruct ("assigned_to" =? col)%string eqn:E5; [apply String.eqb_eq in E5; now subst|].
  reflexivity.
Qed.

Lemma prototype_step_text (df : DataFrame) (col : string) (s : string) :
  Test2.filter_step df (col, PStr s) = filter_step df (col, PStr s).
Proof.
  unfold Test2.filter_step, filter_step. rewrite allowed_column_spec.
  destruct (mem col ALLOWED_FILTERS); [|reflexivity].
  destruct (text_column col); reflexivity.
Qed.

Lemma prototype_step_unlisted (df : DataFrame) (col : string) (v : pyval) :
  mem col ALLOWED_FILTERS = false ->
  Test2.filter_step df (col, v) = filter_step df (col, v).
Proof.
  intro H. unfold Test2.filter_step, filter_step. now rewrite allowed_column_spec, H.
Qed.

Lemma prototype_step_outcome (df : DataFrame) (item : string * pyval) :
  (exists out, Test2.filter_step df item = Return out)
  \/ Test2.filter_step df item = Raise AttributeError.
Proof.
  destruct item as [col v]. unfold Test2.filter_step. rewrite allowed_column_spec.
  destruct (mem col ALLOWED_FILTERS) eqn:Hm; [|eauto].
  destruct (allowed_filter_column col Hm) as [field ->].
  destruct v; simpl; eauto.
Qed.

(** X18.  On a filter mapping whose allow-listed entries all carry
    text, the prototype's [filter_tickets] and the generic one (called
    without a date filter) return the same: the same rows, or the same
    no-tickets marker. *)
Theorem prototype_filter_agrees_on_text (df : DataFrame) (kv : list (string * pyval)) :
  Forall (fun item => mem (fst item) ALLOWED_FILTERS = true -> exists s, snd item = PStr s) kv ->
  Test2.filter_tickets df (PDict kv) = filter_tickets df (PDict kv) PNone.
Proof.
  intro H.
  assert (L : forall df0, Test2.filter_loop df0 kv = filter_loop df0 kv).
  { induction H as [|[col v] rest Hitem _ IH]; intro df0;
      cbn [Test2.filter_loop filter_loop]; [reflexivity|].
    assert (S : Test2.filter_step df0 (col, v) = filter_step df0 (col, v)).
    { destruct (mem col ALLOWED_FILTERS) eqn:Hm.
      - destruct (Hitem Hm) as [s Hs]. simpl in Hs. subst v. apply prototype_step_text.
      - now apply prototype_step_unlisted. }
    rewrite S. destruct (filter_step df0 (col, v)) as [out|e]; cbn [bind];
      [apply IH | reflexivity]. }
  unfold Test2.filter_tickets, filter_tickets, apply_filters. cbn [items bind Py.truthy].
  rewrite L. destruct kv as [|item rest]; cbn [bind filter_loop]; [reflexivity|].
  destruct (filter_step df item) as [out|e]; cbn [bind]; [|reflexivity].
  destruct (filter_loop out rest) as [out'|e]; reflexivity.
Qed.

Lemma prototype_filter_agrees_on_text_witness :
  Test2.filter_tickets three_tickets (PDict [("company", PStr "ACME"); ("ticket_id", PInt 7)])
  = filter_tickets three_tickets (PDict [("company", PStr "ACME"); ("ticket_id", PInt 7)]) PNone.
Proof.
  apply (prototype_filter_agrees_on_text three_tickets
           [("company", PStr "ACME"); ("ticket_id", PInt 7)]).
  constructor; [intros _; exists "ACME"; reflexivity|].
  constructor; [intro H; discriminate H | constructor].
Defined.

(** X19.  The prototype calls [lower] on the filter value itself where
    the generic tool first turns the value into text: a mapping with
    an allow-listed entry whose value is not text ends the prototype's
    [filter_tickets] in an AttributeError, while the generic engine
    returns rows for the same mapping. *)
Theorem prototype_filter_needs_text (df : DataFrame) (kv : list (string * pyval))
    (col : string) (v : pyval) :
  In (col, v) kv -> In col ALLOWED_FILTERS -> (forall s, v <> PStr s) ->
  Test2.filter_tickets df (PDict kv) = Raise AttributeError
  /\ exists out, apply_filters df (PDict kv) PNone = Return out.
Proof.
  intros Hin Hcol Hv. split.
  - assert (L : forall df0, Test2.filter_loop df0 kv = Raise AttributeError).
    { induction kv as [|item rest IH]; intro df0; [contradiction|]. simpl.
      destruct Hin as [->|Hin].
      - unfold Test2.filter_step. rewrite allowed_column_spec.
        apply mem_In in Hcol. rewrite Hcol.
        destruct (allowed_filter_column col Hcol) as [field ->].
        destruct v; try reflexivity. now contradiction (Hv s).
      - destruct (prototype_step_outcome df0 item) as [(out & ->)| ->]; simpl;
          [now apply IH | reflexivity]. }
    unfold Test2.filter_tickets. cbn [items bind]. now rewrite L.
  - rewrite apply_filters_dict. unfold apply_filters. simpl. eauto.
Qed.

Lemma prototype_filter_needs_text_witness :
  Test2.filter_tickets three_tickets (PDict [("priority", PInt 1)]) = Raise AttributeError
  /\ exists out, apply_filters three_tickets (PDict [("priority", PInt 1)]) PNone = Return out.
Proof.
  apply (prototype_filter_needs_text three_tickets [("priority", PInt 1)] "priority" (PInt 1)).
  - left. reflexivity.
  - simpl. tauto.
  - intros s H. discriminate H.
Defined.

(** X20.  Of the five tools the prototype offers to the language
    model, the endpoint ends in a KeyError for exactly one,
    [filter_tickets], which its tool map leaves out; this holds for
    all arguments, tables and clock values. *)
Theorem prototype_filter_tool_unreachable (df : DataFrame) (now : Timestamp) (tool : string)
    (args : pyval) (rest : list (string * pyval)) :
  In tool Test2.tools ->
  (Test2.chat df now ((tool, args) :: rest) = Raise KeyError <-> tool = "filter_tickets").
Proof.
  intro H. simpl in H.
  assert (U : forall kw ps, only_keywords ps kw = Return tt \/ only_keywords ps kw = Raise TypeError).
  { intros kw ps. unfold only_keywords. destruct (forallb _ kw); auto. }
  destruct H as [<-|[<-|[<-|[<-|[<-|[]]]]]]; unfold Test2.chat;
    cbn [Test2.tool_map Test2.tool_map_get String.eqb Ascii.eqb Bool.eqb bind].
  - split; [|discriminate]. destruct args; try discriminate. cbn [unpack bind].
    unfold Test2.call_count_open_tickets. destruct (U kv []) as [-> | ->]; discriminate.
  - split; [|discriminate]. destruct args; try discriminate. cbn [unpack bind].
    unfold Test2.call_get_high_priority_tickets. destruct (U kv []) as [-> | ->]; discriminate.
  - split; [|discriminate]. destruct args; try discriminate. cbn [unpack bind].
    unfold Test2.call_tickets_this_month. destruct (U kv []) as [-> | ->]; discriminate.
  - split; [|discriminate]. destruct args; try discriminate. cbn [unpack bind].
    unfold Test2.call_tickets_for_month.
    destruct (U kv ["month"]) as [-> | ->]; [|discriminate]. cbn [bind].
    unfold keyword. destruct (Py.lookup "month" kv) as [v|]; [|discriminate]. cbn [bind].
    destruct v as [|[|]| |x| | |]; try discriminate.
    unfold Test2.tickets_for_month_value.
    destruct x as [whole exact text|negative|]; try discriminate.
    destruct ((whole <? 1) || (whole >? 12) || ((whole =? 12) && negb exact))%Z; discriminate.
  - split; reflexivity.
Qed.

Lemma prototype_filter_tool_unreachable_witness :
  Test2.chat three_tickets (on_day 2024 1 31)
    [("filter_tickets", PDict [("filters", PDict [("status", PStr "open")])])]
  = Raise KeyError.
Proof.
  apply (prototype_filter_tool_unreachable three_tickets (on_day 2024 1 31) "filter_tickets"
           (PDict [("filters", PDict [("status", PStr "open")])]) []).
  - simpl. tauto.
  - reflexivity.
Defined.

(* ================================================================== *)
(** ** Which rows the filters select *)

Lemma text_column_filter_allowed (col : string) (field : Ticket -> cell) :
  text_column col = Some field -> mem col ALLOWED_FILTERS = true.
Proof.
  unfold text_column.
  destruct (col =? "company")%string eqn:E1; [apply String.eqb_eq in E1; now subst|].
  destruct (col =? "status")%string eqn:E2; [apply String.eqb_eq in E2; now subst|].
  destruct (col =? "priority")%string eqn:E3; [apply String.eqb_eq in E3; now subst|].
  destruct (col =? "category")%string eqn:E4; [apply String.eqb_eq in E4; now subst|].
  destruct (col =? "assigned_to")%string eqn:E5; [apply String.eqb_eq in E5; now subst|].
  discriminate.
Qed.

Lemma rows_match_iff (kv : list (string * pyval)) (t : Ticket) :
  rows_match kv t = true
  <-> forall col v field, In (col, v) kv -> text_column col = Some field ->
        option_map Py.lower (field t) = Some (Py.lower (Py.str v)).
Proof.
  assert (L : forall (c : cell) w, lower_is c w = true <-> option_map Py.lower c = Some w).
  { intros [s|] w; simpl.
    - rewrite String.eqb_eq. split; [intros ->; reflexivity | intro E; now inversion E].
    - split; discriminate. }
  unfold rows_match. rewrite forallb_forall. split.
  - intros H col v field Hin Hc. specialize (H (col, v) Hin).
    unfold row_matches in H. rewrite (text_column_filter_allowed col field Hc), Hc in H.
    now apply L.
  - intros H [col v] Hin. unfold row_matches.
    destruct (mem col ALLOWED_FILTERS); [|reflexivity].
    destruct (text_column col) as [field|] eqn:Hc; [|reflexivity].
    apply L. now apply (H col v field).
Qed.

(** X21.  With a filter mapping and no date filter, a row is returned
    exactly when it is a row of the table and, for every entry of the
    mapping that names one of the five text columns, the row has a
    value in that column and it equals the text of the entry's value
    once both are put in lower case. *)
Theorem selected_rows_match_every_entry (df out : DataFrame) (kv : list (string * pyval)) :
  apply_filters df (PDict kv) PNone = Return out ->
  forall t, In t out
            <-> In t df
                /\ forall col v field, In (col, v) kv -> text_column col = Some field ->
                     option_map Py.lower (field t) = Some (Py.lower (Py.str v)).
Proof.
  intros H t. rewrite apply_filters_dict in H. unfold apply_filters in H. simpl in H.
  inversion H. rewrite filter_In, rows_match_iff. reflexivity.
Qed.

Lemma selected_rows_match_every_entry_witness :
  In beta_open [beta_open]
  <-> In beta_open three_tickets
      /\ forall col v field,
           In (col, v) [("company", PStr "BETA"); ("ticket_id", PStr "T1")] ->
           text_column col = Some field ->
           option_map Py.lower (field beta_open) = Some (Py.lower (Py.str v)).
Proof.
  apply (selected_rows_match_every_entry three_tickets [beta_open]
           [("company", PStr "BETA"); ("ticket_id", PStr "T1")]).
  reflexivity.
Defined.
